(** * US macro dashboard (app.py): series fetcher, transform engine, helpers

    A shallow embedding of the indicator pipeline of [src/app.py]:
    [fred_get_series] (behind [st.cache_data(ttl=60)]), [compute_transform],
    [pct_change_latest] and [latest_value], the refresh gate, the indicator
    table and the card and chart loops, together with the parts of pandas,
    requests and Streamlit they call.

    - A float64 is a primitive binary64 [float]; [nan], [infinity] and the
      IEEE operations are the kernel's.
    - A DataFrame with the columns [date], [value], [last_updated] is a list
      of rows; the row labels of the index play no part in the code (every
      column assignment is between a frame and a series taken from that same
      frame) and are left out.  A timestamp is an integer; [NaT] is outside
      the model.
    - DataFrames are Python objects: they live in a heap and are passed by
      reference, [df.copy()], [sort_values] and [dropna] allocate a new
      object and [s["value"] = ...] updates the object in place.
    - Python exceptions are results ([Raised]). *)

From Stdlib Require Import ZArith Floats Lia Sorting Permutation Ascii String.
From stdpp Require Import gmap strings list sorting.

Set Default Proof Using "Type".

(* ===================================================================== *)
(** * Python results                                                      *)
(* ===================================================================== *)

Inductive exn :=
  | ZeroDivisionError
  | IndexError
  | RequestException      (* requests.get: timeout, connection error *)
  | JSONDecodeError       (* r.json() on a body that is not JSON *)
  | DateParseError.       (* pd.to_datetime, errors='raise' *)

Inductive outcome (A : Type) :=
  | Returned (a : A)
  | Raised (e : exn).
Arguments Returned {A} a.
Arguments Raised {A} e.

(** Python's [a / b] on two floats. *)
Definition py_truediv (a b : float) : outcome float :=
  if (b =? 0)%float then Raised ZeroDivisionError else Returned (a / b)%float.

(** Python's [l[i]] on a list, negative indices counting from the end. *)
Definition py_getitem {A} (l : list A) (i : Z) : outcome A :=
  let n := Z.of_nat (length l) in
  let j := if (i <? 0)%Z then (n + i)%Z else i in
  if ((j <? 0) || (n <=? j))%Z then Raised IndexError
  else match l !! Z.to_nat j with
       | Some x => Returned x
       | None => Raised IndexError
       end.

(* ===================================================================== *)
(** * pandas                                                              *)
(* ===================================================================== *)

Module Pandas.

Record row := Row { date : Z; value : float; last_updated : string }.

Abbreviation DataFrame := (list row).
Abbreviation Series := (list float).

(** [df.empty], [len(df)], [df["value"]], [df["date"]]. *)
Definition empty (df : DataFrame) : bool :=
  match df with [] => true | _ => false end.
Definition values (df : DataFrame) : Series := value <$> df.
Definition dates (df : DataFrame) : list Z := date <$> df.

(** [isna]: a float is missing when it is NaN; an infinity is not. *)
Definition isna (x : float) : bool := PrimFloat.is_nan x.
Definition notna (x : float) : bool := negb (isna x).

(** [s.shift(periods)]: the values move down, NaN comes in at the top. *)
Definition shift (periods : nat) (s : Series) : Series :=
  take (length s) (replicate periods nan ++ s).

(** [s.ffill()]: a missing value takes the last value before it. *)
Fixpoint ffill_from (prev : float) (s : Series) : Series :=
  match s with
  | [] => []
  | x :: s' =>
      if isna x then prev :: ffill_from prev s' else x :: ffill_from x s'
  end.
Definition ffill (s : Series) : Series := ffill_from nan s.

(** The [fill_method] of [pct_change].  When the argument is left out,
    pandas up to 2.x pads; pandas 3 does not fill. *)
Inductive fill_method := pad | no_fill.

(** [s.pct_change(periods)]: [data / data.shift(periods) - 1]. *)
Definition pct (a b : float) : float := (a / b - 1)%float.
Definition pct_change (fm : fill_method) (periods : nat) (s : Series) : Series :=
  let data := match fm with pad => ffill s | no_fill => s end in
  zip_with pct data (shift periods data).

(** [s.diff(periods)]: [s - s.shift(periods)]. *)
Definition diff (periods : nat) (s : Series) : Series :=
  zip_with (fun a b => (a - b)%float) s (shift periods s).

(** [s * c] and [s / c] for a scalar [c]. *)
Definition mul_scalar (s : Series) (c : float) : Series :=
  (fun v => (v * c)%float) <$> s.
Definition div_scalar (s : Series) (c : float) : Series :=
  (fun v => (v / c)%float) <$> s.

(** [df["value"] = s], for a series of the frame's own length. *)
Definition with_value (r : row) (v : float) : row :=
  Row (date r) v (last_updated r).
Definition set_value (df : DataFrame) (s : Series) : DataFrame :=
  zip_with with_value df s.

(** [df.dropna(subset=["value"])]. *)
Definition dropna (df : DataFrame) : DataFrame :=
  filter (fun r => notna (value r)) df.

(** [df.sort_values("date")].  The order pandas gives to rows of equal
    date depends on the sorting algorithm (its default, quicksort, is not
    stable); here they keep their order.  With distinct dates there is
    one sorted arrangement only (lemma [sort_values_unique]), and a
    statement that depends on the order of rows of equal date is made
    for distinct dates. *)
Fixpoint insert_by_date (r : row) (df : DataFrame) : DataFrame :=
  match df with
  | [] => [r]
  | x :: df' =>
      if (date r <=? date x)%Z then r :: x :: df'
      else x :: insert_by_date r df'
  end.
Definition sort_values (df : DataFrame) : DataFrame :=
  foldr insert_by_date [] df.

(** [df.tail(n)]: [df.iloc[0:0]] for [n = 0], otherwise [df.iloc[-n:]]. *)
Definition tail {A} (n : Z) (l : list A) : list A :=
  if (n =? 0)%Z then []
  else if (0 <? n)%Z then drop (length l - Z.to_nat n) l
  else drop (Z.to_nat (- n)) l.

(** Ascending by timestamp. *)
Definition ascending (df : DataFrame) : Prop := Sorted Z.le (dates df).
Definition date_le (a b : row) : Prop := (date a <= date b)%Z.

End Pandas.
Import Pandas.

(* ===================================================================== *)
(** * The heap of DataFrame objects                                       *)
(* ===================================================================== *)

Module Heap.

Abbreviation loc := nat.
Abbreviation heap := (list DataFrame).

Definition M (A : Type) : Type := heap -> A * heap.

Definition ret {A} (a : A) : M A := fun h => (a, h).
Definition bind {A B} (m : M A) (k : A -> M B) : M B :=
  fun h => let '(a, h') := m h in k a h'.

Definition alloc (df : DataFrame) : M loc :=
  fun h => (length h, h ++ [df]).
Definition load (l : loc) : M DataFrame :=
  fun h => (default [] (h !! l), h).
Definition store (l : loc) (df : DataFrame) : M unit :=
  fun h => (tt, <[l := df]> h).

(** The frame a result refers to, [None] for Python's [None]. *)
Definition deref (h : heap) (r : option loc) : option DataFrame :=
  match r with Some l => h !! l | None => None end.

End Heap.
Import Heap.

Declare Scope heap_scope.
Delimit Scope heap_scope with heap.
Notation "x <- m ;; k" := (bind m (fun x => k))
  (at level 100, m at next level, right associativity) : heap_scope.
Notation "m ;;; k" := (bind m (fun _ => k))
  (at level 100, right associativity) : heap_scope.

(** The pandas methods on objects. *)
Module Obj.
Local Open Scope heap_scope.

(* df.copy() *)
Definition copy (df : loc) : M loc := f <- load df ;; alloc f.
(* df.sort_values("date") *)
Definition sort_values (df : loc) : M loc :=
  f <- load df ;; alloc (Pandas.sort_values f).
(* df["value"] *)
Definition getitem_value (df : loc) : M Series :=
  f <- load df ;; ret (values f).
(* df["value"] = s *)
Definition setitem_value (df : loc) (s : Series) : M unit :=
  f <- load df ;; store df (set_value f s).
(* df.dropna(subset=["value"]) *)
Definition dropna (df : loc) : M loc :=
  f <- load df ;; alloc (Pandas.dropna f).
End Obj.

(* ===================================================================== *)
(** * app.py                                                              *)
(* ===================================================================== *)

Definition obind {A B} (m : outcome A) (k : A -> outcome B) : outcome B :=
  match m with
  | Returned a => k a
  | Raised e => Raised e
  end.

Declare Scope outcome_scope.
Delimit Scope outcome_scope with outcome.
Notation "x <- m ;; k" := (obind m (fun x => k))
  (at level 100, m at next level, right associativity) : outcome_scope.

(** ** The transform engine *)

Section Transform.
(** What [pct_change] does when [fill_method] is not given, which is how
    the code calls it. *)
Variable default_fill : fill_method.

Local Open Scope heap_scope.

(** The body of [compute_transform].  The [st.cache_data] around it
    hands back what the body returns for the same arguments. *)
Definition compute_transform (df : option loc) (transform : string)
  : M (option loc) :=
  match df with
  | None => ret None
  | Some df =>
      s <- Obj.copy df ;;
      s <- Obj.sort_values s ;;
      (if String.eqb transform "yoy" then
         v <- Obj.getitem_value s ;;
         Obj.setitem_value s (mul_scalar (pct_change default_fill 12 v) 100)
       else if String.eqb transform "mom_level_k" then
         v <- Obj.getitem_value s ;;
         Obj.setitem_value s (div_scalar (diff 1 v) 1000)
       else if String.eqb transform "level_thous" then
         v <- Obj.getitem_value s ;;
         Obj.setitem_value s (div_scalar v 1000)
       else if String.eqb transform "level_millions" then
         v <- Obj.getitem_value s ;;
         Obj.setitem_value s (div_scalar v 1000000)
       else if String.eqb transform "level" then
         ret tt
       else
         ret tt) ;;;
      s <- Obj.dropna s ;;
      ret (Some s)
  end.

(** The new [value] column as a function of the sorted column. *)
Definition transform_values (transform : string) (v : Series) : Series :=
  if String.eqb transform "yoy" then
    mul_scalar (pct_change default_fill 12 v) 100
  else if String.eqb transform "mom_level_k" then div_scalar (diff 1 v) 1000
  else if String.eqb transform "level_thous" then div_scalar v 1000
  else if String.eqb transform "level_millions" then div_scalar v 1000000
  else v.

(** The objects of a call on the frame [df], after the copy: the sorted
    frame with its [value] column rewritten in place, and the result of
    [dropna] (lemma [compute_transform_run]). *)
Definition rewritten (transform : string) (df : DataFrame) : DataFrame :=
  let s := Pandas.sort_values df in
  set_value s (transform_values transform (values s)).
Definition transformed (transform : string) (df : DataFrame) : DataFrame :=
  Pandas.dropna (rewritten transform df).

(** [compute_transform] applied to the object [df] of heap [h]: the
    frame of the result, [None] for a [None] result. *)
Definition transform_result (h : heap) (df : option loc) (transform : string)
  : option DataFrame :=
  let '(r, h') := compute_transform df transform h in deref h' r.

End Transform.

(** The five transform names of the indicator table. *)
Definition known_transforms : list string :=
  ["yoy"; "mom_level_k"; "level_thous"; "level_millions"; "level"]%string.

(** A caller's test for no data: [series is None or series.empty]. *)
Definition no_data (r : option DataFrame) : bool :=
  match r with
  | None => true
  | Some df => empty df
  end.

(** The year-over-year series in the words of the specification: the point
    at each position [t >= 12] of the sorted series [s] carries
    [(value[t] / value[t-12] - 1) * 100]; there is no point for [t < 12]. *)
Definition yoy_point (s : DataFrame) (t : nat) : row :=
  let cur := default (Row 0 nan "") (s !! t) in
  let ref := default (Row 0 nan "") (s !! (t - 12)) in
  Row (date cur) ((value cur / value ref - 1) * 100)%float (last_updated cur).
Definition yoy_spec (s : DataFrame) : DataFrame :=
  yoy_point s <$> seq 12 (length s - 12).

(** ** Derived query helpers *)

Local Open Scope outcome_scope.

(** [pct_change_latest] only reads its frame; it is given the frame its
    argument refers to. *)
Definition pct_change_latest (df : option DataFrame) (periods : Z)
  : outcome (option float) :=
  match df with
  | None => Returned None
  | Some df =>
      if empty df || (Z.of_nat (length df) <=? periods)%Z then Returned None
      else
        let vals := tail (periods + 1) (values df) in
        a <- py_getitem vals (-1) ;;
        b <- py_getitem vals (- periods - 1) ;;
        q <- py_truediv a b ;;
        Returned (Some ((q - 1.0) * 100.0)%float)
  end.

(** The value the specification gives for a series of more than [n]
    points: [(value[last] / value[last-n] - 1) * 100]. *)
Definition pct_change_spec (df : DataFrame) (n : nat) : float :=
  let v := values df in
  let last := (length v - 1)%nat in
  ((default nan (v !! last) / default nan (v !! (last - n)%nat) - 1) * 100)%float.

(** ** The series fetcher *)

Record observation := Observation { obs_date : string; obs_value : string }.

(** The JSON body: [data.get("observations", [])] and
    [data.get("realtime_end", "")]. *)
Record payload := Payload {
  observations : list observation;
  realtime_end : string
}.

(** What [requests.get] gives: a response with its status, text and JSON
    body ([None] when the text is not JSON), or an exception. *)
Inductive http_result :=
  | Response (status_code : Z) (text : string) (json : option payload)
  | NoResponse.

Section Fetch.
(** The parsers of pandas for one cell: [None] when the text does not
    parse.  [pd.to_numeric] may parse a text to NaN. *)
Variable parse_datetime : string -> option Z.
Variable parse_numeric : string -> option float.
(** The network: the response to the [n]-th request sent, for a series
    and a frequency. *)
Variable network : nat -> string -> string -> http_result.

(* pd.to_datetime(obs["date"]) *)
Definition to_datetime (l : list string) : outcome (list Z) :=
  match mapM parse_datetime l with
  | Some ds => Returned ds
  | None => Raised DateParseError
  end.

(* pd.to_numeric(obs["value"], errors="coerce") *)
Definition to_numeric_coerce (l : list string) : Series :=
  (fun s => default nan (parse_numeric s)) <$> l.

(** From [data = r.json()] to the returned frame. *)
Definition parse_payload (data : payload) : outcome (option DataFrame) :=
  let obs := observations data in
  match obs with
  | [] => Returned None
  | _ =>
      ds <- to_datetime (obs_date <$> obs) ;;
      let vs := to_numeric_coerce (obs_value <$> obs) in
      let frame := zip_with (fun d v => Row d v (realtime_end data)) ds vs in
      Returned (Some (Pandas.dropna frame))
  end.

(** A record whose value parses to a number, and the point it gives. *)
Definition numeric (o : observation) : bool :=
  match parse_numeric (obs_value o) with
  | Some x => notna x
  | None => false
  end.
Definition point (stamp : string) (o : observation) : option row :=
  match parse_datetime (obs_date o), parse_numeric (obs_value o) with
  | Some d, Some x => if notna x then Some (Row d x stamp) else None
  | _, _ => None
  end.

(** The body of [fred_get_series], with the number of requests sent so
    far as state. *)
Definition fred_get_series_body (series_id freq : string) (sent : nat)
  : outcome (option DataFrame) * nat :=
  match network sent series_id freq with
  | NoResponse => (Raised RequestException, S sent)
  | Response status text body =>
      if negb (status =? 200)%Z then (Returned None, S sent)
      else match body with
           | None => (Raised JSONDecodeError, S sent)
           | Some data => (parse_payload data, S sent)
           end
  end.

(** [st.cache_data(ttl=60)]: one entry per argument tuple, stamped with
    the time it was written; an entry is served while
    [now < stamp + ttl]; a call that raises writes nothing. *)
Definition ttl : Z := 60.

Record fetcher := Fetcher {
  requests : nat;
  entries : gmap (string * string) (Z * option DataFrame)
}.

Definition cache_lookup (now : Z) (key : string * string) (st : fetcher)
  : option (option DataFrame) :=
  match entries st !! key with
  | Some (stamp, v) => if (now <? stamp + ttl)%Z then Some v else None
  | None => None
  end.

Definition fred_get_series (series_id freq : string) (now : Z) (st : fetcher)
  : outcome (option DataFrame) * fetcher :=
  match cache_lookup now (series_id, freq) st with
  | Some v => (Returned v, st)
  | None =>
      let '(r, sent) := fred_get_series_body series_id freq (requests st) in
      match r with
      | Returned v =>
          (r, Fetcher sent (<[(series_id, freq) := (now, v)]> (entries st)))
      | Raised _ => (r, Fetcher sent (entries st))
      end
  end.

(** [st.cache_data.clear()]. *)
Definition clear_cache (st : fetcher) : fetcher := Fetcher (requests st) ∅.

End Fetch.

(* ===================================================================== *)
(** * The page: refresh gate, indicator table, cards and charts           *)
(* ===================================================================== *)

(** ** Auto-refresh

    [now.weekday()] counts from Monday, 0; the page reruns every
    [refresh_ms] milliseconds when that is not 0. *)
Definition is_weekday (weekday : Z) : bool := (weekday <=? 4)%Z.
Definition is_market_hours (hour minute : Z) : bool :=
  (7 <? hour)%Z && ((hour <? 17)%Z || ((hour =? 17)%Z && (minute <=? 30)%Z)).
Definition refresh_ms (weekday hour minute : Z) : Z :=
  if is_weekday weekday && is_market_hours hour minute then 60000%Z else 0%Z.

(** ** latest_value

    [df.iloc[-1]] is the last row; like [pct_change_latest] the function
    only reads its frame. *)
Definition latest_value (df : option DataFrame)
  : outcome (option float * option Z) :=
  match df with
  | None => Returned (None, None)
  | Some df =>
      if empty df then Returned (None, None)
      else row <- py_getitem df (-1) ;;
           Returned (Some (value row), Some (date row))
  end.

(** ** The indicator table *)

Record indicator := Indicator {
  ind_id : string;
  ind_freq : string;
  ind_transform : string
}.

Definition INDICATORS : list (string * indicator) :=
  [ ("CPI (YoY, %)", Indicator "CPIAUCSL" "m" "yoy");
    ("Core CPI (YoY, %)", Indicator "CPILFESL" "m" "yoy");
    ("PCE (YoY, %)", Indicator "PCEPI" "m" "yoy");
    ("Core PCE (YoY, %)", Indicator "PCEPILFE" "m" "yoy");
    ("PPI All Commodities (YoY, %)", Indicator "PPIACO" "m" "yoy");
    ("Nonfarm Payrolls (k, m/m)", Indicator "PAYEMS" "m" "mom_level_k");
    ("Unemployment Rate (%)", Indicator "UNRATE" "m" "level");
    ("Avg Hourly Earnings (YoY, %)", Indicator "CES0500000003" "m" "yoy");
    ("Initial Jobless Claims (thous)", Indicator "ICSA" "w" "level_thous");
    ("Job Openings, JOLTS (millions)", Indicator "JTSJOL" "m" "level_millions");
    ("Retail Sales (YoY, %)", Indicator "RSAFS" "m" "yoy");
    ("ISM Manufacturing PMI", Indicator "NAPM" "m" "level");
    ("ISM Services PMI", Indicator "NMFBS" "m" "level");
    ("Real GDP (QoQ SAAR, %)", Indicator "A191RL1Q225SBEA" "q" "level") ]%string.

(** ** Cards and charts *)

(** What a card shows: the error box, or the metric with its date and
    its delta (the numbers, before [format_val]). *)
Inductive card_view :=
  | CardError
  | CardMetric (latest : float) (d : option Z) (delta : option float).

(** What a chart shows: the warning, or the line of the points in the
    window with the caption's latest value and date. *)
Inductive chart_view :=
  | ChartWarning
  | Chart (points : DataFrame) (latest : option float) (d : option Z).

(** The frame a cached call hands out is an object of its own. *)
Definition new_object (raw : option DataFrame) : M (option loc) :=
  match raw with
  | None => ret None
  | Some f => fun h => let '(l, h') := alloc f h in (Some l, h')
  end.

(** [series.loc[series["date"] >= cutoff]] *)
Definition window (cutoff : Z) (series : DataFrame) : DataFrame :=
  filter (fun r => (cutoff <=? date r)%Z) series.

Section Page.
Variable default_fill : fill_method.
Variable parse_datetime : string -> option Z.
Variable parse_numeric : string -> option float.
Variable network : nat -> string -> string -> http_result.

(** [card], after [meta = INDICATORS[metric_name]], on the series the
    transform engine returned. *)
Definition card_body (meta : indicator) (series : option DataFrame)
  : outcome card_view :=
  ld <- latest_value series ;;
  chg_1 <- (if String.eqb (ind_transform meta) "level"
            then pct_change_latest series 1
            else Returned None) ;;
  Returned (match fst ld with
            | None => CardError
            | Some latest => CardMetric latest (snd ld) chg_1
            end).

(** [card] for the table entry [meta], its call of [fred_get_series]
    made at time [now]. *)
Definition card (meta : indicator) (now : Z) (st : fetcher) (h : heap)
  : outcome card_view * fetcher * heap :=
  let '(raw, st) :=
    fred_get_series parse_datetime parse_numeric network
      (ind_id meta) (ind_freq meta) now st in
  match raw with
  | Raised e => (Raised e, st, h)
  | Returned raw =>
      let '(raw, h) := new_object raw h in
      let '(series, h) := compute_transform default_fill raw (ind_transform meta) h in
      (card_body meta (deref h series), st, h)
  end.

(** [for i, name in enumerate(INDICATORS.keys()): card(name, ...)], the
    [i]-th card calling the fetcher at time [clock i]; an exception ends
    the run. *)
Fixpoint render_cards (inds : list (string * indicator)) (clock : nat -> Z)
    (i : nat) (st : fetcher) (h : heap)
  : outcome (list card_view) * fetcher * heap :=
  match inds with
  | [] => (Returned [], st, h)
  | (_, meta) :: rest =>
      let '(v, st, h) := card meta (clock i) st h in
      match v with
      | Raised e => (Raised e, st, h)
      | Returned v =>
          let '(vs, st, h) := render_cards rest clock (S i) st h in
          (match vs with
           | Returned vs => Returned (v :: vs)
           | Raised e => Raised e
           end, st, h)
      end
  end.

(** The body of the chart loop for the table entry [meta], with the
    cutoff [today - lookback_years] as a timestamp. *)
Definition chart_body (cutoff : Z) (series : option DataFrame)
  : outcome chart_view :=
  match series with
  | None => Returned ChartWarning
  | Some s =>
      if empty s then Returned ChartWarning
      else
        let w := window cutoff s in
        ld <- latest_value (Some w) ;;
        Returned (Chart w (fst ld) (snd ld))
  end.

Definition chart (meta : indicator) (cutoff now : Z) (st : fetcher) (h : heap)
  : outcome chart_view * fetcher * heap :=
  let '(raw, st) :=
    fred_get_series parse_datetime parse_numeric network
      (ind_id meta) (ind_freq meta) now st in
  match raw with
  | Raised e => (Raised e, st, h)
  | Returned raw =>
      let '(raw, h) := new_object raw h in
      let '(series, h) := compute_transform default_fill raw (ind_transform meta) h in
      (chart_body cutoff (deref h series), st, h)
  end.

End Page.

(** The month-over-month series, by position: the point at each position
    [t >= 1] of the sorted series carries [(value[t] - value[t-1]) / 1000]. *)
Definition mom_point (s : DataFrame) (t : nat) : row :=
  let cur := default (Row 0 nan "") (s !! t) in
  let prev := default (Row 0 nan "") (s !! (t - 1)) in
  Row (date cur) ((value cur - value prev) / 1000)%float (last_updated cur).
Definition mom_spec (s : DataFrame) : DataFrame :=
  mom_point s <$> seq 1 (length s - 1).

(** A cache all of whose entries were written at [t0] or later. *)
Definition fresh_since (t0 : Z) (st : fetcher) : Prop :=
  forall k stamp v, entries st !! k = Some (stamp, v) -> (t0 <= stamp)%Z.

(** The cache key of a table entry. *)
Definition cache_key (ind : string * indicator) : string * string :=
  (ind_id (snd ind), ind_freq (snd ind)).

(** The cache holds, for a table entry, a series of which the card is [v]. *)
Definition cached_view (fm : fill_method) (st : fetcher)
    (ind : string * indicator) (v : card_view) : Prop :=
  exists stamp raw,
    entries st !! cache_key ind = Some (stamp, raw)
    /\ card_body (snd ind) (transformed fm (ind_transform (snd ind)) <$> raw)
       = Returned v.

(** The timestamp and the metadata of a row. *)
Definition key (r : row) : Z * string := (date r, last_updated r).

(** A row with its value divided by [c]. *)
Definition scaled (c : float) (r : row) : row :=
  Row (date r) (value r / c)%float (last_updated r).

(** A float that is neither NaN nor infinite. *)
Definition finite (x : float) : bool := PrimFloat.is_finite x.

(** The same on the specification side of binary64. *)
Definition SFnan (x : spec_float) : bool :=
  match x with S754_nan => true | _ => false end.
Definition SFfin (x : spec_float) : bool :=
  match x with S754_finite _ _ _ | S754_zero _ => true | _ => false end.

(* ===================================================================== *)
(** * Sample series and a stub network                                    *)
(* ===================================================================== *)

Module Samples.
Local Open Scope string_scope.

(** The [i]-th monthly point gets timestamp [i]. *)
Definition monthly (vs : list float) : DataFrame :=
  imap (fun i v => Row (Z.of_nat i) v "2024-06-01") vs.

(** Thirteen samples from 100 to 110. *)
Definition s13 : DataFrame :=
  monthly [100; 102; 103; 104; 105; 105; 106; 107; 107; 108; 109; 109; 110]%float.

(** Fourteen samples, the last of them missing. *)
Definition gap14 : Series :=
  [100; 102; 103; 104; 105; 105; 106; 107; 107; 108; 109; 109; 110; nan]%float.

(** The same points out of order. *)
Definition s13_shuffled : DataFrame :=
  drop 5 s13 ++ take 5 s13.

(** Twelve samples: one short of a year of history. *)
Definition s12 : DataFrame := take 12 s13.

(** Thirteen finite samples, the first of them zero. *)
Definition zero_ref : DataFrame :=
  monthly [0; 1; 1; 1; 1; 1; 1; 1; 1; 1; 1; 1; 1]%float.

(** A level series whose value before the last is zero. *)
Definition flat_zero : DataFrame := monthly [0; 1]%float.
Definition rates : DataFrame := monthly [4; 5]%float.

(** Parsers for the sample responses: unsigned decimal integers, and
    dates written [YYYY-MM-DD] read as the number [YYYYMMDD]. *)
Fixpoint digits (acc : Z) (s : string) : option Z :=
  match s with
  | EmptyString => Some acc
  | String c s' =>
      let n := Z.of_N (Ascii.N_of_ascii c) in
      if ((48 <=? n) && (n <=? 57))%Z then digits (10 * acc + (n - 48)) s'
      else None
  end.

Fixpoint without_dash (s : string) : string :=
  match s with
  | EmptyString => EmptyString
  | String c s' =>
      if Ascii.eqb c "-"%char then without_dash s' else String c (without_dash s')
  end.

Definition stub_numeric (s : string) : option float :=
  match s with
  | EmptyString => None
  | _ => (fun z => PrimFloat.of_uint63 (Uint63.of_Z z)) <$> digits 0 s
  end.

Definition stub_datetime (s : string) : option Z :=
  match s with
  | EmptyString => None
  | _ => digits 0 (without_dash s)
  end.

(** Ten records, the fourth with FRED's mark for a missing value. *)
Definition ten_records : list observation :=
  [ Observation "2024-01-01" "301"; Observation "2024-02-01" "302";
    Observation "2024-03-01" "303"; Observation "2024-04-01" ".";
    Observation "2024-05-01" "305"; Observation "2024-06-01" "306";
    Observation "2024-07-01" "307"; Observation "2024-08-01" "308";
    Observation "2024-09-01" "309"; Observation "2024-10-01" "310" ].

Definition body : payload := Payload ten_records "2024-11-01".

(** A network that answers every request for UNRATE with [body] and
    any other with status 400. *)
Definition stub_network (n : nat) (series_id freq : string) : http_result :=
  if String.eqb series_id "UNRATE" then Response 200 "" (Some body)
  else Response 400 "Bad Request" None.

Definition cold : fetcher := Fetcher 0 ∅.

(** A body whose second record has a date that does not parse, and one
    whose values are all missing. *)
Definition bad_date_body : payload :=
  Payload [ Observation "2024-01-01" "301"; Observation "n/a" "302" ] "2024-11-01".
Definition dots_body : payload :=
  Payload [ Observation "2024-01-01" "."; Observation "2024-02-01" "." ] "2024-11-01".

End Samples.

(* ===================================================================== *)
(** * Facts about binary64                                                *)
(* ===================================================================== *)

Section Float64.
Local Open Scope float_scope.

Lemma Prim2SF_inj (x y : float) : Prim2SF x = Prim2SF y -> x = y.
Proof.
  intros E. rewrite <- (SF2Prim_Prim2SF x), <- (SF2Prim_Prim2SF y).
  now rewrite E.
Qed.

Lemma div_nan_r (x : float) : x / nan = nan.
Proof.
  apply Prim2SF_inj. rewrite div_spec.
  change (Prim2SF nan) with S754_nan.
  unfold SF64div, SFdiv. now destruct (Prim2SF x).
Qed.

Lemma div_nan_l (x : float) : nan / x = nan.
Proof.
  apply Prim2SF_inj. rewrite div_spec. now change (Prim2SF nan) with S754_nan.
Qed.

Lemma sub_nan_l (x : float) : nan - x = nan.
Proof.
  apply Prim2SF_inj. rewrite sub_spec. now change (Prim2SF nan) with S754_nan.
Qed.

Lemma sub_nan_r (x : float) : x - nan = nan.
Proof.
  apply Prim2SF_inj. rewrite sub_spec.
  change (Prim2SF nan) with S754_nan.
  unfold SF64sub, SFsub. now destruct (Prim2SF x).
Qed.

Lemma mul_nan_l (x : float) : nan * x = nan.
Proof.
  apply Prim2SF_inj. rewrite mul_spec. now change (Prim2SF nan) with S754_nan.
Qed.

(** There is one NaN. *)
Lemma isna_nan (x : float) : isna x = true <-> x = nan.
Proof.
  split; [|intros ->; reflexivity].
  unfold isna, is_nan. rewrite FloatAxioms.eqb_spec. intros E.
  apply Prim2SF_inj. change (Prim2SF nan) with S754_nan.
  destruct (Prim2SF x) as [s| s| |s m e]; try reflexivity; exfalso.
  - now destruct s.
  - now destruct s.
  - cbn in E. rewrite Pos.compare_refl, Z.compare_refl in E.
    now destruct s.
Qed.

End Float64.

(* ===================================================================== *)
(** * Facts about the pandas operations                                   *)
(* ===================================================================== *)

Section PandasFacts.
Implicit Types (df s : DataFrame) (v : Series) (r : row).

(** ** Series *)

Lemma length_shift n v : length (shift n v) = length v.
Proof.
  unfold shift. rewrite length_take, List.length_app, length_replicate. lia.
Qed.

Lemma zip_with_pad_front {C} (f : float -> float -> C) n (c : float) v w :
  zip_with f v (replicate n c ++ w)
  = ((fun a => f a c) <$> take n v) ++ zip_with f (drop n v) w.
Proof.
  revert v. induction n as [|n IH]; intros [|a v]; simpl; try reflexivity.
  f_equal. apply IH.
Qed.

(** A series against its own shift: NaN is the partner of the first
    [n] values, the value [n] places earlier that of the others. *)
Lemma zip_with_shift {C} (f : float -> float -> C) n v :
  zip_with f v (shift n v)
  = ((fun a => f a nan) <$> take n v) ++ zip_with f (drop n v) v.
Proof. unfold shift. now rewrite zip_with_take_r, zip_with_pad_front. Qed.

Lemma ffill_from_notna p v :
  Forall (fun x => isna x = false) v -> ffill_from p v = v.
Proof.
  intros H. revert p. induction H as [|x v Hx _ IH]; intros p; simpl.
  - reflexivity.
  - rewrite Hx. f_equal. apply IH.
Qed.

Lemma length_ffill_from p v : length (ffill_from p v) = length v.
Proof.
  revert p. induction v as [|x v IH]; intros p; simpl; [reflexivity|].
  destruct (isna x); simpl; now rewrite IH.
Qed.

Lemma length_pct_change fm n v : length (pct_change fm n v) = length v.
Proof.
  unfold pct_change. rewrite length_zip_with, length_shift.
  destruct fm; unfold ffill; rewrite ?length_ffill_from; lia.
Qed.

Lemma length_diff n v : length (diff n v) = length v.
Proof. unfold diff. rewrite length_zip_with, length_shift. lia. Qed.

(** ** Column assignment *)

Lemma length_set_value s v : length v = length s -> length (set_value s v) = length s.
Proof. intros E. unfold set_value. rewrite length_zip_with. lia. Qed.

Lemma dates_set_value s v :
  length v = length s -> dates (set_value s v) = dates s.
Proof.
  revert v. induction s as [|r s IH]; intros [|a v] E; simpl in *;
    try discriminate; [reflexivity|].
  f_equal. apply IH. lia.
Qed.

Lemma set_value_values s : set_value s (values s) = s.
Proof.
  unfold set_value, values.
  induction s as [|[d a u] s IH]; simpl; [reflexivity|].
  f_equal. exact IH.
Qed.

(** ** dropna *)

Lemma dropna_notna df : Forall (fun r => isna (value r) = false) (dropna df).
Proof.
  apply Forall_forall. intros r Hr. apply list_elem_of_filter in Hr as [Hr _].
  unfold notna in Hr. now destruct (isna (value r)).
Qed.

Lemma dropna_id df :
  Forall (fun r => isna (value r) = false) df -> dropna df = df.
Proof.
  induction 1 as [|r df Hr _ IH]; [reflexivity|].
  unfold dropna in *. rewrite filter_cons_True, IH; [reflexivity|].
  unfold notna. now rewrite Hr.
Qed.

Lemma dropna_idemp df : dropna (dropna df) = dropna df.
Proof. apply dropna_id, dropna_notna. Qed.

Lemma dropna_all_nan df :
  Forall (fun r => value r = nan) df -> dropna df = [].
Proof.
  induction 1 as [|r df Hr _ IH]; [reflexivity|].
  unfold dropna in *. rewrite filter_cons_False; [exact IH|].
  unfold notna. now rewrite Hr.
Qed.

Lemma dropna_sublist df : dropna df `sublist_of` df.
Proof. apply sublist_filter. Qed.

(** ** sort_values *)

Lemma ascending_rows df : ascending df <-> Sorted date_le df.
Proof.
  unfold ascending, dates. split.
  - induction df as [|r df IH]; intros H; [constructor|].
    simpl in H. apply Sorted_inv in H as [H1 H2]. constructor; [auto|].
    destruct df; [constructor|]. simpl in H2. apply HdRel_inv in H2.
    now constructor.
  - apply Sorted_fmap. auto.
Qed.

#[local] Instance date_le_trans : Transitive date_le.
Proof. unfold date_le. intros a b c. lia. Qed.

Lemma insert_by_date_perm r df : insert_by_date r df ≡ₚ r :: df.
Proof.
  induction df as [|x df IH]; simpl; [reflexivity|].
  destruct (date r <=? date x)%Z; [reflexivity|].
  rewrite IH. apply perm_swap.
Qed.

Lemma sort_values_perm df : sort_values df ≡ₚ df.
Proof.
  induction df as [|r df IH]; simpl; [reflexivity|].
  now rewrite insert_by_date_perm, IH.
Qed.

Lemma length_sort_values df : length (sort_values df) = length df.
Proof. apply Permutation_length, sort_values_perm. Qed.

Lemma insert_by_date_sorted r df :
  Sorted date_le df -> Sorted date_le (insert_by_date r df).
Proof.
  induction df as [|x df IH]; intros H; simpl.
  - repeat constructor.
  - destruct (Z.leb_spec (date r) (date x)) as [Hle|Hgt].
    + constructor; [exact H|]. now constructor.
    + apply Sorted_inv in H as [H1 H2]. constructor; [auto|].
      destruct df as [|y df]; simpl.
      * constructor. unfold date_le. lia.
      * apply HdRel_inv in H2.
        destruct (date r <=? date y)%Z; constructor; unfold date_le in *; lia.
Qed.

Lemma sort_values_sorted df : ascending (sort_values df).
Proof.
  apply ascending_rows.
  induction df as [|r df IH]; simpl; [constructor|].
  now apply insert_by_date_sorted.
Qed.

(** Sorting a frame that is in order changes nothing. *)
Lemma sort_values_ascending df : ascending df -> sort_values df = df.
Proof.
  rewrite ascending_rows.
  induction df as [|r df IH]; intros H; [reflexivity|].
  apply Sorted_inv in H as [H1 H2]. simpl. rewrite (IH H1).
  destruct df as [|x df]; [reflexivity|]. simpl.
  apply HdRel_inv in H2. unfold date_le in H2.
  now apply Z.leb_le in H2 as ->.
Qed.

(** With distinct timestamps the sorted frame is the only arrangement of
    the rows in ascending order: any sorting algorithm returns it. *)
Lemma sort_values_unique df df' :
  NoDup (dates df) -> df' ≡ₚ df -> ascending df' -> df' = sort_values df.
Proof.
  intros Hnd Hp Hs.
  apply (Sorted_unique_strong date_le).
  - intros a b Ha Hb Hab Hba.
    assert (E : date a = date b) by (unfold date_le in *; lia).
    rewrite Hp in Ha. rewrite sort_values_perm in Hb.
    apply list_elem_of_lookup in Ha as [i Hi], Hb as [j Hj].
    assert (i = j) as ->; [|congruence].
    apply (NoDup_lookup (dates df) i j (date a)); [exact Hnd|..];
      unfold dates; rewrite list_lookup_fmap; [rewrite Hi|rewrite Hj];
      simpl; congruence.
  - now apply ascending_rows.
  - apply ascending_rows, sort_values_sorted.
  - now rewrite Hp, sort_values_perm.
Qed.

Lemma ascending_dropna df : ascending df -> ascending (dropna df).
Proof.
  rewrite !ascending_rows. intros H.
  apply Sorted_StronglySorted in H; [|apply date_le_trans].
  apply StronglySorted_Sorted.
  induction H as [|r df Hs IH Hr]; [constructor|].
  unfold dropna in *. rewrite filter_cons.
  destruct (decide _); [|exact IH].
  constructor; [exact IH|].
  apply Forall_forall. intros x Hx. apply list_elem_of_filter in Hx as [_ Hx].
  rewrite Forall_forall in Hr. now apply Hr.
Qed.

End PandasFacts.

(* ===================================================================== *)
(** * The run of compute_transform                                        *)
(* ===================================================================== *)

Section HeapFacts.

Lemma run_load (h : heap) l f : h !! l = Some f -> load l h = (f, h).
Proof. intros E. unfold load. now rewrite E. Qed.

Lemma lookup_new (h : heap) (f : DataFrame) k :
  (h ++ f :: k) !! length h = Some f.
Proof. now apply list_lookup_middle. Qed.

Lemma lookup_old (h k : heap) l : l < length h -> (h ++ k) !! l = h !! l.
Proof. apply lookup_app_l. Qed.

Lemma store_new (h : heap) (f g : DataFrame) k :
  <[length h := g]> (h ++ f :: k) = h ++ g :: k.
Proof.
  rewrite insert_app_r_alt by lia. now replace (length h - length h) with 0 by lia.
Qed.

End HeapFacts.

Section TransformFacts.
Variable fm : fill_method.
Implicit Types (df s : DataFrame) (v : Series) (h : heap) (k : string).

Lemma length_transform_values k v : length (transform_values fm k v) = length v.
Proof.
  unfold transform_values, mul_scalar, div_scalar.
  repeat destruct (String.eqb _ _);
    rewrite ?length_fmap, ?length_pct_change, ?length_diff; reflexivity.
Qed.

Lemma compute_transform_run h l df k :
  h !! l = Some df ->
  compute_transform fm (Some l) k h
  = (Some (length h + 2), h ++ [df; rewritten fm k df; transformed fm k df]).
Proof.
  intros Hl.
  unfold compute_transform, Obj.copy, Obj.sort_values, Obj.getitem_value,
    Obj.setitem_value, Obj.dropna, bind, alloc, store, ret.
  rewrite (run_load _ _ _ Hl).
  rewrite (run_load _ _ _ (lookup_new h df [])).
  unfold transformed, rewritten, transform_values.
  set (s := sort_values df).
  rewrite <- app_assoc. simpl app.
  assert (L2 : forall f : DataFrame, length h + 2 = length (h ++ [df; f]))
    by (intros; rewrite List.length_app; simpl; lia).
  assert (Hs : forall f : DataFrame,
             load (length (h ++ [df])) (h ++ [df; f]) = (f, h ++ [df; f])).
  { intros f. apply run_load.
    change (h ++ [df; f]) with (h ++ [df] ++ [f]). rewrite app_assoc.
    apply lookup_new. }
  assert (Hst : forall f g : DataFrame,
             <[length (h ++ [df]) := g]> (h ++ [df; f]) = h ++ [df; g]).
  { intros f g. change (h ++ [df; f]) with (h ++ [df] ++ [f]).
    rewrite app_assoc, store_new. now rewrite <- app_assoc. }
  repeat destruct (String.eqb k _);
    rewrite ?set_value_values, ?Hs, ?Hst, ?Hs;
    rewrite <- (L2 _), <- app_assoc; reflexivity.
Qed.

End TransformFacts.

(* ===================================================================== *)
(** * The transform engine                                                *)
(* ===================================================================== *)

Section TransformResult.
Variable fm : fill_method.
Implicit Types (df s : DataFrame) (v : Series) (h : heap) (k : string).

Lemma transform_result_Some h l df k :
  h !! l = Some df ->
  transform_result fm h (Some l) k = Some (transformed fm k df).
Proof.
  intros Hl. unfold transform_result.
  rewrite (compute_transform_run fm h l df k Hl). simpl.
  change (h ++ [df; rewritten fm k df; transformed fm k df])
    with (h ++ [df; rewritten fm k df] ++ [transformed fm k df]).
  rewrite app_assoc.
  replace (length h + 2) with (length (h ++ [df; rewritten fm k df]))
    by (rewrite List.length_app; simpl; lia).
  apply lookup_new.
Qed.

Lemma transformed_level df : transformed fm "level" df = dropna (sort_values df).
Proof.
  unfold transformed, rewritten.
  change (transform_values fm "level" ?v) with v.
  now rewrite set_value_values.
Qed.

Lemma transformed_ascending k df : ascending (transformed fm k df).
Proof.
  unfold transformed, rewritten. apply ascending_dropna. unfold ascending.
  rewrite dates_set_value.
  - apply sort_values_sorted.
  - rewrite length_transform_values. apply length_fmap.
Qed.

(** ** The shape of [pct_change] *)

Lemma pct_nan_r v : (fun a => pct a nan) <$> v = replicate (length v) nan.
Proof.
  induction v as [|a v IH]; simpl; [reflexivity|].
  unfold pct at 1. rewrite div_nan_r, sub_nan_l. now f_equal.
Qed.

Lemma pct_change_shape n v :
  let data := match fm with pad => ffill v | no_fill => v end in
  pct_change fm n v
  = replicate (min n (length v)) nan ++ zip_with pct (drop n data) data.
Proof.
  intros data. unfold pct_change. fold data.
  rewrite zip_with_shift, pct_nan_r, length_take.
  replace (length data) with (length v); [reflexivity|].
  subst data. destruct fm; [unfold ffill; now rewrite length_ffill_from|reflexivity].
Qed.

Lemma pct_change_notna n v :
  Forall (fun x => isna x = false) v ->
  pct_change fm n v
  = replicate (min n (length v)) nan ++ zip_with pct (drop n v) v.
Proof.
  intros H. rewrite pct_change_shape.
  destruct fm; [unfold ffill; now rewrite ffill_from_notna|reflexivity].
Qed.

(** The rewritten column of a year-over-year call, split at position 12. *)
Lemma set_value_split s (w1 w2 : Series) :
  length w1 = min 12 (length s) ->
  set_value s (w1 ++ w2)
  = set_value (take 12 s) w1 ++ set_value (drop 12 s) w2.
Proof.
  intros E. unfold set_value.
  rewrite <- (take_drop 12 s) at 1.
  apply zip_with_app. now rewrite length_take.
Qed.

Lemma set_value_nan s n : Forall (fun r => value r = nan) (set_value s (replicate n nan)).
Proof.
  apply Forall_forall. intros r Hr. unfold set_value in Hr.
  apply list_elem_of_lookup in Hr as [i Hi].
  apply lookup_zip_with_Some in Hi as (x & y & -> & _ & Hy).
  apply lookup_replicate in Hy as [-> _]. reflexivity.
Qed.

Lemma dropna_yoy s (w : Series) :
  dropna (set_value s (mul_scalar (replicate (min 12 (length s)) nan ++ w) 100))
  = dropna (set_value (drop 12 s) (mul_scalar w 100)).
Proof.
  unfold mul_scalar. rewrite fmap_app, fmap_replicate.
  rewrite set_value_split by apply length_replicate.
  unfold dropna at 1. rewrite filter_app.
  fold (dropna (set_value (take 12 s) (replicate (min 12 (length s)) (nan * 100)%float))).
  rewrite dropna_all_nan; [reflexivity|]. apply set_value_nan.
Qed.

Lemma yoy_points s :
  set_value (drop 12 s) (mul_scalar (zip_with pct (drop 12 (values s)) (values s)) 100)
  = yoy_spec s.
Proof.
  apply list_eq. intros i. unfold set_value, mul_scalar, yoy_spec, values.
  rewrite lookup_zip_with, !list_lookup_fmap, lookup_zip_with, lookup_drop.
  rewrite !list_lookup_fmap, lookup_drop.
  destruct (s !! (12 + i)) as [r|] eqn:Hr; simpl.
  - assert (Hlt : 12 + i < length s) by (apply lookup_lt_is_Some; eauto).
    destruct (lookup_lt_is_Some_2 s i) as [p Hp]; [lia|].
    assert (Hy : yoy_point s (12 + i) = with_value r (pct (value r) (value p) * 100)%float).
    { unfold yoy_point. rewrite Hr.
      replace (12 + i - 12) with i by lia. now rewrite Hp. }
    rewrite Hp, lookup_seq_lt by lia. simpl. f_equal. exact (eq_sym Hy).
  - apply lookup_ge_None in Hr. rewrite lookup_seq_ge by lia. reflexivity.
Qed.

Lemma sort_values_notna df :
  Forall (fun r => isna (value r) = false) df ->
  Forall (fun x => isna x = false) (values (sort_values df)).
Proof.
  intros H. unfold values. apply Forall_fmap.
  now rewrite sort_values_perm.
Qed.

Lemma transform_values_yoy v :
  transform_values fm "yoy" v = mul_scalar (pct_change fm 12 v) 100.
Proof. reflexivity. Qed.

Lemma transformed_yoy df :
  Forall (fun r => isna (value r) = false) df ->
  transformed fm "yoy" df = dropna (yoy_spec (sort_values df)).
Proof.
  intros H. unfold transformed, rewritten. rewrite transform_values_yoy.
  rewrite (pct_change_notna 12 _ (sort_values_notna df H)).
  unfold values at 1. rewrite length_fmap.
  now rewrite dropna_yoy, yoy_points.
Qed.

Lemma transformed_yoy_short df : length df < 13 -> transformed fm "yoy" df = [].
Proof.
  intros Hlen. unfold transformed, rewritten. rewrite transform_values_yoy.
  rewrite pct_change_shape.
  set (data := match fm with pad => _ | no_fill => _ end).
  unfold values at 1. rewrite length_fmap. rewrite dropna_yoy.
  rewrite (drop_ge (sort_values df)); [reflexivity|].
  rewrite length_sort_values. lia.
Qed.

End TransformResult.

(** C1.  Year over year: on a series without missing values the result of
    [compute_transform(df, "yoy")] holds, for each position [t >= 12] of the
    frame sorted by timestamp, the point of that timestamp with the value
    [(value[t] / value[t-12] - 1) * 100], the lookback counting positions;
    the first 12 points of the sorted frame have no point in the result.
    (A point whose value comes out as NaN is dropped, as for every
    transform.)  Whichever way [pct_change] fills by default. *)
Theorem yoy_positional_lookback (fm : fill_method) (h : heap) (l : loc) (df : DataFrame) :
  h !! l = Some df ->
  Forall (fun r => isna (value r) = false) df ->
  transform_result fm h (Some l) "yoy" = Some (dropna (yoy_spec (sort_values df))).
Proof.
  intros Hl Hna. rewrite (transform_result_Some fm h l df _ Hl).
  now rewrite transformed_yoy.
Qed.

Lemma yoy_positional_lookback_witness :
  transform_result pad [Samples.s13_shuffled] (Some 0) "yoy"
  = Some (dropna (yoy_spec (sort_values Samples.s13_shuffled)))
  /\ dropna (yoy_spec (sort_values Samples.s13_shuffled))
     = [Row 12 ((110 / 100 - 1) * 100)%float "2024-06-01"].
Proof.
  split.
  - apply (yoy_positional_lookback pad [Samples.s13_shuffled] 0 Samples.s13_shuffled).
    + reflexivity.
    + repeat constructor.
  - reflexivity.
Defined.

(** When [pct_change] does not fill, missing input values need no
    hypothesis: they give NaN, and the point is dropped. *)
Lemma yoy_no_fill_any_input (h : heap) (l : loc) (df : DataFrame) :
  h !! l = Some df ->
  transform_result no_fill h (Some l) "yoy" = Some (dropna (yoy_spec (sort_values df))).
Proof.
  intros Hl. rewrite (transform_result_Some no_fill h l df _ Hl).
  unfold transformed, rewritten.
  rewrite transform_values_yoy, pct_change_shape.
  unfold values at 1. rewrite length_fmap.
  now rewrite dropna_yoy, yoy_points.
Qed.

(** When it pads, a missing input value takes the value before it, and the
    point that the positional rule would lose is there, computed from the
    padded value: the reason for the hypothesis of
    [yoy_positional_lookback]. *)
Example yoy_pad_missing_input :
  transform_result pad [Samples.monthly Samples.gap14] (Some 0) "yoy"
  = Some [Row 12 ((110 / 100 - 1) * 100)%float "2024-06-01";
          Row 13 ((110 / 102 - 1) * 100)%float "2024-06-01"]
  /\ dropna (yoy_spec (Samples.monthly Samples.gap14))
     = [Row 12 ((110 / 100 - 1) * 100)%float "2024-06-01"].
Proof. split; reflexivity. Qed.

(** C5.  A series of fewer than 13 points gives an empty series under
    year over year. *)
Theorem yoy_short_history_empty (fm : fill_method) (h : heap) (l : loc) (df : DataFrame) :
  h !! l = Some df ->
  length df < 13 ->
  transform_result fm h (Some l) "yoy" = Some [].
Proof.
  intros Hl Hlen. rewrite (transform_result_Some fm h l df _ Hl).
  now rewrite transformed_yoy_short.
Qed.

Lemma yoy_short_history_empty_witness :
  transform_result pad [Samples.s12] (Some 0) "yoy" = Some [].
Proof.
  apply (yoy_short_history_empty pad [Samples.s12] 0 Samples.s12).
  - reflexivity.
  - vm_compute. lia.
Defined.

(** C2, as the code has it.  Every point of a result has a value that is
    not NaN: the result is the rewritten frame without its NaN points, and
    nothing else is taken out.  An infinite value is not missing for
    pandas and stays. *)
Theorem output_values_not_nan (fm : fill_method) (h : heap) (l : loc)
    (df : DataFrame) (k : string) :
  h !! l = Some df ->
  exists out,
    transform_result fm h (Some l) k = Some out
    /\ out = dropna (rewritten fm k df)
    /\ Forall (fun r => isna (value r) = false) out
    /\ (forall r, r ∈ rewritten fm k df -> isna (value r) = false -> r ∈ out).
Proof.
  intros Hl. exists (transformed fm k df). split; [|split; [|split]].
  - now apply transform_result_Some.
  - reflexivity.
  - apply dropna_notna.
  - intros r Hr Hna. apply list_elem_of_filter. split; [|exact Hr].
    unfold notna. now rewrite Hna.
Qed.

Lemma output_values_not_nan_witness :
  exists out,
    transform_result pad [Samples.zero_ref] (Some 0) "yoy" = Some out
    /\ out = dropna (rewritten pad "yoy" Samples.zero_ref)
    /\ Forall (fun r => isna (value r) = false) out
    /\ (forall r, r ∈ rewritten pad "yoy" Samples.zero_ref ->
                  isna (value r) = false -> r ∈ out).
Proof.
  apply (output_values_not_nan pad [Samples.zero_ref] 0 Samples.zero_ref "yoy").
  reflexivity.
Defined.

(** C2, as stated, fails: thirteen finite samples of which the first is
    zero give, year over year, one point, and its value [1 / 0 - 1] is
    infinite. *)
Lemma nonfinite_point_emitted :
  Forall (fun r => is_finite (value r) = true) Samples.zero_ref
  /\ transform_result pad [Samples.zero_ref] (Some 0) "yoy"
     = Some [Row 12 infinity "2024-06-01"]
  /\ transform_result no_fill [Samples.zero_ref] (Some 0) "yoy"
     = Some [Row 12 infinity "2024-06-01"]
  /\ is_finite infinity = false.
Proof.
  split; [repeat constructor|]. repeat split; reflexivity.
Qed.

(** C3.  [compute_transform(None, k)] returns [None] and touches nothing;
    on an empty frame it returns an empty frame.  Both are no data for
    the callers ([series is None or series.empty]), and no transform name
    makes a difference. *)
Theorem no_data_passes_through (fm : fill_method) (h : heap) (k : string) :
  (compute_transform fm None k h = (None, h)
   /\ no_data (transform_result fm h None k) = true)
  /\ (forall l df,
        h !! l = Some df -> empty df = true ->
        transform_result fm h (Some l) k = Some []
        /\ no_data (transform_result fm h (Some l) k) = true).
Proof.
  split; [split; reflexivity|].
  intros l df Hl He. destruct df; [|discriminate].
  rewrite (transform_result_Some fm h l [] k Hl).
  split; reflexivity.
Qed.

Lemma no_data_passes_through_witness :
  transform_result pad [[]] (Some 0) "mom_level_k" = Some []
  /\ no_data (transform_result pad [[]] (Some 0) "mom_level_k") = true.
Proof.
  apply (proj2 (no_data_passes_through pad [[]] "mom_level_k") 0 []); reflexivity.
Defined.

Section DistinctDates.

(** With distinct timestamps the rows of the level result have distinct
    timestamps too. *)
Lemma level_result_NoDup (df : DataFrame) :
  NoDup (dates df) -> NoDup (dates (dropna (sort_values df))).
Proof.
  intros Hnd. unfold dates.
  apply (sublist_NoDup _ (date <$> sort_values df)).
  - now rewrite sort_values_perm.
  - apply fmap_sublist, dropna_sublist.
Qed.

(** And the result is the only arrangement of its rows in ascending order:
    sorting it again, by whatever algorithm, gives it back. *)
Lemma level_result_fixed (df s : DataFrame) :
  NoDup (dates df) ->
  s ≡ₚ dropna (sort_values df) -> ascending s -> s = dropna (sort_values df).
Proof.
  intros Hnd Hp Ha.
  rewrite (sort_values_unique (dropna (sort_values df)) s
             (level_result_NoDup df Hnd) Hp Ha).
  apply sort_values_ascending, ascending_dropna, sort_values_sorted.
Qed.

End DistinctDates.

(** C6.  On a series of distinct timestamps the level transform returns
    the rows of its input, sorted and without those whose value is
    missing; applied to its own result it returns that result again.
    Neither depends on how the sort treats equal timestamps, there being
    none: every ascending arrangement of the input is the sorted frame,
    and every ascending arrangement of the result is the result. *)
Theorem level_idempotent (fm : fill_method) (h : heap) (l : loc) (df : DataFrame) :
  h !! l = Some df ->
  NoDup (dates df) ->
  let '(r1, h1) := compute_transform fm (Some l) "level" h in
  transform_result fm h1 r1 "level" = deref h1 r1
  /\ deref h1 r1 = Some (dropna (sort_values df))
  /\ (Forall (fun r => isna (value r) = false) df ->
      exists out, deref h1 r1 = Some out /\ out ≡ₚ df)
  /\ (forall s, s ≡ₚ df -> ascending s -> s = sort_values df)
  /\ (forall s, s ≡ₚ dropna (sort_values df) -> ascending s ->
        s = dropna (sort_values df)).
Proof.
  intros Hl Hnd.
  pose proof (transform_result_Some fm h l df "level" Hl) as Hr.
  unfold transform_result in Hr.
  destruct (compute_transform fm (Some l) "level" h) as [r1 h1] eqn:E.
  rewrite transformed_level in Hr.
  rewrite (compute_transform_run fm h l df _ Hl) in E.
  injection E as <- <-.
  split; [|split; [|split; [|split]]].
  - rewrite Hr. simpl in Hr.
    rewrite (transform_result_Some fm _ _ _ "level" Hr), transformed_level.
    f_equal.
    rewrite <- (sort_values_unique (dropna (sort_values df)) (dropna (sort_values df))
                  (level_result_NoDup df Hnd) (reflexivity _)
                  (ascending_dropna _ (sort_values_sorted df))).
    apply dropna_idemp.
  - exact Hr.
  - intros Hna. exists (sort_values df). split; [|apply sort_values_perm].
    rewrite Hr. f_equal. apply dropna_id.
    now rewrite sort_values_perm.
  - intros s Hp Ha. now apply sort_values_unique.
  - intros s. now apply level_result_fixed.
Qed.

Lemma level_idempotent_witness :
  let '(r1, h1) := compute_transform pad (Some 0) "level" [Samples.s13_shuffled] in
  transform_result pad h1 r1 "level" = deref h1 r1
  /\ deref h1 r1 = Some (dropna (sort_values Samples.s13_shuffled))
  /\ (Forall (fun r => isna (value r) = false) Samples.s13_shuffled ->
      exists out, deref h1 r1 = Some out /\ out ≡ₚ Samples.s13_shuffled)
  /\ (forall s, s ≡ₚ Samples.s13_shuffled -> ascending s ->
        s = sort_values Samples.s13_shuffled)
  /\ (forall s, s ≡ₚ dropna (sort_values Samples.s13_shuffled) -> ascending s ->
        s = dropna (sort_values Samples.s13_shuffled)).
Proof.
  apply (level_idempotent pad [Samples.s13_shuffled] 0 Samples.s13_shuffled).
  - reflexivity.
  - apply NoDup_ListNoDup. vm_compute.
    repeat (constructor; [simpl; lia|]). constructor.
Defined.

(** C7.  Whatever the order of the input and whatever the transform, the
    result is in ascending order of timestamp; it is a new object, and
    the call leaves the input, and every other object there was, as it
    found it. *)
Theorem output_ascending_input_untouched (fm : fill_method) (h : heap) (l : loc)
    (df : DataFrame) (k : string) :
  h !! l = Some df ->
  let '(r, h') := compute_transform fm (Some l) k h in
  (exists out, deref h' r = Some out /\ ascending out)
  /\ h' !! l = Some df
  /\ (forall l0, l0 < length h -> h' !! l0 = h !! l0)
  /\ r <> Some l.
Proof.
  intros Hl.
  pose proof (transform_result_Some fm h l df k Hl) as Hr.
  unfold transform_result in Hr.
  rewrite (compute_transform_run fm h l df k Hl) in *.
  assert (Hlt : l < length h) by (apply lookup_lt_is_Some; eauto).
  repeat split.
  - exists (transformed fm k df). split; [exact Hr|apply transformed_ascending].
  - now rewrite lookup_old.
  - intros l0 H0. now apply lookup_old.
  - intros E. injection E as E. lia.
Qed.

Lemma output_ascending_input_untouched_witness :
  let '(r, h') := compute_transform pad (Some 0) "mom_level_k" [Samples.s13_shuffled] in
  (exists out, deref h' r = Some out /\ ascending out)
  /\ h' !! 0 = Some Samples.s13_shuffled
  /\ (forall l0, l0 < 1 -> h' !! l0 = [Samples.s13_shuffled] !! l0)
  /\ r <> Some 0.
Proof.
  apply (output_ascending_input_untouched pad [Samples.s13_shuffled] 0
           Samples.s13_shuffled "mom_level_k").
  reflexivity.
Defined.

(** C10.  A transform name outside the five of the table takes the last
    branch, which does what the level branch does: the call runs as the
    level call runs and returns the sorted rows with their values as
    they were (those with a missing value dropped), never [None]. *)
Theorem unknown_transform_is_level (fm : fill_method) (h : heap) (l : loc)
    (df : DataFrame) (k : string) :
  h !! l = Some df ->
  k ∉ known_transforms ->
  compute_transform fm (Some l) k h = compute_transform fm (Some l) "level" h
  /\ transform_result fm h (Some l) k = Some (dropna (sort_values df)).
Proof.
  intros Hl Hk. unfold known_transforms in Hk.
  rewrite !not_elem_of_cons in Hk.
  destruct Hk as (H1 & H2 & H3 & H4 & H5 & _).
  apply String.eqb_neq in H1, H2, H3, H4, H5.
  assert (E : compute_transform fm (Some l) k h
              = compute_transform fm (Some l) "level" h).
  { unfold compute_transform. rewrite H1, H2, H3, H4, H5. reflexivity. }
  split; [exact E|].
  unfold transform_result. rewrite E.
  apply (transform_result_Some fm h l df "level") in Hl.
  unfold transform_result in Hl. now rewrite Hl, transformed_level.
Qed.

Lemma unknown_transform_is_level_witness :
  compute_transform pad (Some 0) "qoq" [Samples.s13_shuffled]
  = compute_transform pad (Some 0) "level" [Samples.s13_shuffled]
  /\ transform_result pad [Samples.s13_shuffled] (Some 0) "qoq"
     = Some (dropna (sort_values Samples.s13_shuffled)).
Proof.
  apply (unknown_transform_is_level pad [Samples.s13_shuffled] 0 Samples.s13_shuffled "qoq").
  - reflexivity.
  - unfold known_transforms. rewrite !not_elem_of_cons.
    repeat split; try discriminate. apply not_elem_of_nil.
Defined.

(* ===================================================================== *)
(** * Percent change over n periods                                       *)
(* ===================================================================== *)

Section Helpers.

Lemma py_getitem_from_end {A} (l : list A) (i : nat) (x : A) :
  1 <= i <= length l ->
  l !! (length l - i) = Some x ->
  py_getitem l (- Z.of_nat i) = Returned x.
Proof.
  intros Hi Hx. unfold py_getitem.
  destruct (Z.ltb_spec (- Z.of_nat i) 0) as [_|?]; [|lia].
  destruct (Z.ltb_spec (Z.of_nat (length l) + - Z.of_nat i) 0) as [?|_]; [lia|].
  destruct (Z.leb_spec (Z.of_nat (length l)) (Z.of_nat (length l) + - Z.of_nat i))
    as [?|_]; [lia|].
  simpl.
  replace (Z.to_nat (Z.of_nat (length l) + - Z.of_nat i)) with (length l - i) by lia.
  now rewrite Hx.
Qed.

Lemma tail_last {A} (n : nat) (l : list A) :
  tail (Z.of_nat n + 1) l = drop (length l - S n) l.
Proof.
  unfold tail.
  destruct (Z.eqb_spec (Z.of_nat n + 1) 0) as [?|_]; [lia|].
  destruct (Z.ltb_spec 0 (Z.of_nat n + 1)) as [_|?]; [|lia].
  f_equal. lia.
Qed.

End Helpers.

(** X24.  What [pct_change_latest] does for every series and every
    lookback [n >= 0]: on a series of at most [n] points it returns
    [None]; on a longer one it divides the last value by the value [n]
    places before it, raises [ZeroDivisionError] when that value is zero,
    and returns [(value[last] / value[last-n] - 1) * 100] otherwise. *)
Theorem pct_change_latest_spec (df : DataFrame) (n : nat) :
  pct_change_latest (Some df) (Z.of_nat n)
  = if (length df <=? n)%nat then Returned None
    else if (default nan (values df !! (length df - 1 - n)%nat) =? 0)%float
         then Raised ZeroDivisionError
         else Returned (Some (pct_change_spec df n)).
Proof.
  unfold pct_change_latest.
  destruct (Nat.leb_spec (length df) n) as [Hle|Hgt].
  - destruct (Z.leb_spec (Z.of_nat (length df)) (Z.of_nat n)) as [_|?]; [|lia].
    now rewrite orb_true_r.
  - destruct (Z.leb_spec (Z.of_nat (length df)) (Z.of_nat n)) as [?|_]; [lia|].
    destruct df as [|r0 df0] eqn:Edf; [simpl in Hgt; lia|]. rewrite <- Edf in *.
    assert (Hlen : length (values df) = length df) by apply length_fmap.
    replace (empty df) with false by now rewrite Edf.
    simpl orb. cbv iota.
    rewrite tail_last. set (vals := drop (length (values df) - S n) (values df)).
    assert (Hv : length vals = S n) by (subst vals; rewrite length_drop; lia).
    destruct (lookup_lt_is_Some_2 (values df) (length df - 1)) as [a Ha]; [lia|].
    destruct (lookup_lt_is_Some_2 (values df) (length df - 1 - n)) as [b Hb]; [lia|].
    assert (Ga : py_getitem vals (-1) = Returned a).
    { apply (py_getitem_from_end vals 1); [lia|].
      subst vals. rewrite lookup_drop, length_drop. rewrite <- Ha. f_equal. lia. }
    assert (Gb : py_getitem vals (- Z.of_nat n - 1) = Returned b).
    { replace (- Z.of_nat n - 1)%Z with (- Z.of_nat (S n))%Z by lia.
      apply (py_getitem_from_end vals (S n)); [lia|].
      subst vals. rewrite lookup_drop, length_drop. rewrite <- Hb. f_equal. lia. }
    rewrite Ga, Gb. simpl obind. rewrite Hb. simpl default.
    unfold py_truediv. destruct (b =? 0)%float; [reflexivity|].
    simpl. unfold pct_change_spec.
    now rewrite Hlen, Ha, Hb.
Qed.

(** C4.  The helper at a series of two points whose first value is zero,
    with a lookback of one: the series has [N + 1] points, and the helper
    does not return the percent change, nor [None] as for its other
    unavailable cases: Python's division of the two floats raises. *)
Lemma pct_change_latest_zero_reference :
  length Samples.flat_zero = 2
  /\ pct_change_latest (Some Samples.flat_zero) 1 = Raised ZeroDivisionError
  /\ pct_change_latest (Some Samples.flat_zero) 1
     <> Returned (Some (pct_change_spec Samples.flat_zero 1)).
Proof.
  split; [reflexivity|]. split; [reflexivity|].
  intros H. vm_compute in H. discriminate H.
Qed.

(* ===================================================================== *)
(** * The series fetcher                                                  *)
(* ===================================================================== *)

Section FetchFacts.
Variable parse_datetime : string -> option Z.
Variable parse_numeric : string -> option float.
Variable network : nat -> string -> string -> http_result.


Lemma dropna_points stamp (obs : list observation) (ds : list Z) :
  mapM parse_datetime (obs_date <$> obs) = Some ds ->
  dropna (zip_with (fun d v => Row d v stamp) ds
            (to_numeric_coerce parse_numeric (obs_value <$> obs)))
  = omap (point parse_datetime parse_numeric stamp) obs.
Proof.
  revert ds. induction obs as [|o obs IH]; intros ds H.
  - cbn in H. injection H as <-. reflexivity.
  - cbn in H.
    destruct (parse_datetime (obs_date o)) as [d|] eqn:Ed; [|discriminate].
    destruct (mapM parse_datetime (obs_date <$> obs)) as [ds'|] eqn:Em;
      [|discriminate].
    injection H as <-. specialize (IH ds' eq_refl).
    unfold to_numeric_coerce in *. rewrite !fmap_cons.
    cbn [zip_with omap list_omap]. unfold point at 1. rewrite Ed.
    unfold dropna in *. rewrite filter_cons. cbn [value].
    destruct (parse_numeric (obs_value o)) as [x|]; cbn [default].
    + case_decide as Hx; simpl in Hx; destruct (notna x);
        try contradiction; try (now rewrite IH).
      exfalso. apply Hx. exact I.
    + rewrite decide_False by (intros []). exact IH.
Qed.

Lemma length_points stamp (obs : list observation) :
  Forall (fun o => is_Some (parse_datetime (obs_date o))) obs ->
  length (omap (point parse_datetime parse_numeric stamp) obs) = length (filter (fun o => numeric parse_numeric o) obs).
Proof.
  induction 1 as [|o obs [d Hd] _ IH]; [reflexivity|].
  simpl. unfold point at 1. rewrite Hd.
  destruct (numeric parse_numeric o) eqn:En.
  - rewrite filter_cons_True by (rewrite En; exact I).
    unfold numeric in En.
    destruct (parse_numeric (obs_value o)) as [x|]; [|discriminate].
    rewrite En. simpl. f_equal. exact IH.
  - rewrite filter_cons_False by (rewrite En; intros []).
    unfold numeric in En.
    destruct (parse_numeric (obs_value o)) as [x|]; [rewrite En|]; exact IH.
Qed.

Lemma parse_payload_points (data : payload) :
  observations data <> [] ->
  Forall (fun o => is_Some (parse_datetime (obs_date o))) (observations data) ->
  parse_payload parse_datetime parse_numeric data
  = Returned (Some (omap (point parse_datetime parse_numeric (realtime_end data))
                      (observations data))).
Proof.
  intros Hne Hd. unfold parse_payload, to_datetime.
  destruct (observations data) as [|o obs] eqn:E; [congruence|].
  destruct (mapM_is_Some_2 parse_datetime (obs_date <$> (o :: obs))) as [ds Hds].
  { apply Forall_fmap. exact Hd. }
  rewrite Hds. simpl obind. now rewrite (dropna_points _ _ _ Hds).
Qed.

End FetchFacts.

(** C8.  A response with status 200 whose dates parse gives the points of
    the records whose value parses to a number, in their order; a record
    whose value does not parse is left out and the fetch returns all the
    same.  With one such record among [n] good ones the series has exactly
    [n] points (nine for nine). *)
Theorem bad_values_dropped
    (parse_datetime : string -> option Z) (parse_numeric : string -> option float)
    (network : nat -> string -> string -> http_result)
    (series_id freq text : string) (sent : nat) (data : payload) :
  network sent series_id freq = Response 200 text (Some data) ->
  observations data <> [] ->
  Forall (fun o => is_Some (parse_datetime (obs_date o))) (observations data) ->
  exists frame,
    fred_get_series_body parse_datetime parse_numeric network series_id freq sent
    = (Returned (Some frame), S sent)
    /\ frame = omap (point parse_datetime parse_numeric (realtime_end data))
                 (observations data)
    /\ length frame
       = length (filter (fun o => numeric parse_numeric o) (observations data))
    /\ (forall bad good,
          observations data ≡ₚ bad :: good ->
          numeric parse_numeric bad = false ->
          Forall (fun o => numeric parse_numeric o = true) good ->
          length frame = length good).
Proof.
  intros Hn Hne Hd. eexists. split; [|split; [reflexivity|]].
  - unfold fred_get_series_body. rewrite Hn. simpl.
    now rewrite parse_payload_points.
  - assert (L := length_points parse_datetime parse_numeric (realtime_end data) _ Hd).
    split; [exact L|].
    intros bad good Hp Hbad Hgood. rewrite L, Hp.
    rewrite filter_cons_False by (rewrite Hbad; auto).
    f_equal. clear -Hgood. induction Hgood as [|o good Ho _ IH]; [reflexivity|].
    rewrite filter_cons_True by (rewrite Ho; exact I). now rewrite IH.
Qed.

Lemma bad_values_dropped_witness :
  exists frame,
    fred_get_series_body Samples.stub_datetime Samples.stub_numeric
      Samples.stub_network "UNRATE" "m" 0
    = (Returned (Some frame), 1)
    /\ length frame = 9.
Proof.
  destruct (bad_values_dropped Samples.stub_datetime Samples.stub_numeric
              Samples.stub_network "UNRATE" "m" "" 0 Samples.body)
    as (frame & E & -> & _ & _).
  - reflexivity.
  - discriminate.
  - repeat constructor; eexists; reflexivity.
  - eexists. split; [exact E|reflexivity].
Defined.

Section CacheFacts.
Variable parse_datetime : string -> option Z.
Variable parse_numeric : string -> option float.
Variable network : nat -> string -> string -> http_result.

Local Abbreviation fetch_body :=
  (fred_get_series_body parse_datetime parse_numeric network).
Local Abbreviation fetch :=
  (fred_get_series parse_datetime parse_numeric network).

(** Every run of the body sends one request. *)
Lemma body_sends_one series_id freq sent :
  snd (fetch_body series_id freq sent) = S sent.
Proof.
  unfold fred_get_series_body.
  destruct (network sent series_id freq) as [status text [data|]|];
    [destruct (negb (status =? 200)%Z)..|]; reflexivity.
Qed.

(** A hit returns the entry and leaves the state alone. *)
Lemma fetch_hit series_id freq now st v :
  cache_lookup now (series_id, freq) st = Some v ->
  fetch series_id freq now st = (Returned v, st).
Proof. intros H. unfold fred_get_series. now rewrite H. Qed.

(** A miss sends one request, and writes what the body returned under
    the key with the time of the call. *)
Lemma fetch_miss series_id freq now st :
  cache_lookup now (series_id, freq) st = None ->
  requests (snd (fetch series_id freq now st)) = S (requests st)
  /\ forall v st',
       fetch series_id freq now st = (Returned v, st') ->
       entries st' = <[(series_id, freq) := (now, v)]> (entries st).
Proof.
  intros H. unfold fred_get_series. rewrite H.
  pose proof (body_sends_one series_id freq (requests st)) as Hb.
  destruct (fetch_body series_id freq (requests st)) as [[v|e] sent];
    simpl in Hb; subst sent; (split; [reflexivity|]); intros v' st' E.
  - now injection E as <- <-.
  - discriminate.
Qed.

Lemma cache_lookup_fresh now now' key v (st : fetcher) es :
  entries st = <[key := (now, v)]> es ->
  cache_lookup now' key st = if (now' <? now + ttl)%Z then Some v else None.
Proof. intros E. unfold cache_lookup. now rewrite E, lookup_insert_eq. Qed.

End CacheFacts.

(** X23.  When a call for a key goes out to the network and returns, a
    later call for that key before 60 time units have passed returns the
    same series and sends nothing, so the two calls send one request; a
    call from the 60th unit on, or any call after the cache was cleared,
    sends a new request. *)
Theorem cache_ttl
    (parse_datetime : string -> option Z) (parse_numeric : string -> option float)
    (network : nat -> string -> string -> http_result)
    (series_id freq : string) (t1 : Z) (st st1 : fetcher) (v : option DataFrame) :
  cache_lookup t1 (series_id, freq) st = None ->
  fred_get_series parse_datetime parse_numeric network series_id freq t1 st
  = (Returned v, st1) ->
  requests st1 = S (requests st)
  /\ (forall t2, (t2 < t1 + 60)%Z ->
        fred_get_series parse_datetime parse_numeric network series_id freq t2 st1
        = (Returned v, st1))
  /\ (forall t2, (t1 + 60 <= t2)%Z ->
        requests (snd (fred_get_series parse_datetime parse_numeric network
                         series_id freq t2 st1))
        = S (requests st1))
  /\ (forall t2,
        requests (snd (fred_get_series parse_datetime parse_numeric network
                         series_id freq t2 (clear_cache st1)))
        = S (requests st1)).
Proof.
  intros Hmiss Hcall.
  destruct (fetch_miss parse_datetime parse_numeric network _ _ _ _ Hmiss)
    as [Hreq Hent].
  rewrite Hcall in Hreq. simpl in Hreq. specialize (Hent v st1 Hcall).
  pose proof (fun t2 => cache_lookup_fresh t1 t2 (series_id, freq) v st1 _ Hent)
    as Hlook.
  unfold ttl in Hlook.
  split; [exact Hreq|]. split; [|split].
  - intros t2 Ht. apply fetch_hit. rewrite Hlook.
    destruct (Z.ltb_spec t2 (t1 + 60)); [reflexivity|lia].
  - intros t2 Ht. apply fetch_miss. rewrite Hlook.
    destruct (Z.ltb_spec t2 (t1 + 60)); [lia|reflexivity].
  - intros t2. apply (fetch_miss _ _ _ _ _ _ (clear_cache st1)).
    unfold cache_lookup, clear_cache. simpl. now rewrite lookup_empty.
Qed.

Lemma cache_ttl_witness :
  let fetch := fred_get_series Samples.stub_datetime Samples.stub_numeric
                 Samples.stub_network "UNRATE" "m" in
  let st1 := snd (fetch 0%Z Samples.cold) in
  requests st1 = 1
  /\ fetch 59%Z st1 = (fst (fetch 0%Z Samples.cold), st1)
  /\ requests (snd (fetch 60%Z st1)) = 2
  /\ requests (snd (fetch 0%Z (clear_cache st1))) = 2.
Proof.
  intros fetch st1. subst st1.
  assert (Hmiss : cache_lookup 0 ("UNRATE", "m")%string Samples.cold = None)
    by reflexivity.
  destruct (fetch 0%Z Samples.cold) as [r s] eqn:E.
  assert (Hr : exists v, r = Returned v).
  { apply (f_equal fst) in E. simpl in E. rewrite <- E. eexists.
    vm_compute. reflexivity. }
  destruct Hr as [v ->].
  destruct (cache_ttl Samples.stub_datetime Samples.stub_numeric
              Samples.stub_network "UNRATE" "m" 0 Samples.cold s v Hmiss E)
    as (H1 & H2 & H3 & H4).
  simpl. split; [exact H1|]. split; [apply H2; lia|].
  split; [rewrite H3 by lia|rewrite H4]; now rewrite H1.
Defined.

(** C9.  Two calls for one key inside the window when the request fails
    with an exception ([requests.get] is called without [try]): the first
    call raises and leaves no entry, and the second call, one time unit
    later, sends a second request and raises again. *)
Lemma raising_fetch_sends_twice :
  let fetch := fred_get_series Samples.stub_datetime Samples.stub_numeric
                 (fun _ _ _ => NoResponse) "UNRATE" "m" in
  let '(r1, st1) := fetch 0%Z Samples.cold in
  let '(r2, st2) := fetch 1%Z st1 in
  r1 = Raised RequestException /\ requests st1 = 1
  /\ entries st1 = entries Samples.cold
  /\ r2 = Raised RequestException /\ requests st2 = 2.
Proof. repeat split; reflexivity. Qed.

(* ===================================================================== *)
(** * More on binary64: which operations give NaN                         *)
(* ===================================================================== *)

Section Rounding.
Variables prec emax : Z.

Lemma iter_pos_invariant {A} (P : A -> Prop) (f : A -> A) :
  (forall x, P x -> P (f x)) -> forall n x, P x -> P (SpecFloat.iter_pos f n x).
Proof.
  intros Hf. induction n as [n IH|n IH|]; intros x Hx; simpl; auto.
Qed.

Lemma shr_1_nonneg mrs : (0 <= shr_m mrs)%Z -> (0 <= shr_m (shr_1 mrs))%Z.
Proof.
  destruct mrs as [m r s]. simpl.
  destruct m as [|[p|p|]|[p|p|]]; simpl; lia.
Qed.

Lemma shr_nonneg mrs e n :
  (0 <= shr_m mrs)%Z -> (0 <= shr_m (fst (shr mrs e n)))%Z.
Proof.
  intros H. destruct n; simpl; try exact H.
  now apply (iter_pos_invariant (fun x => (0 <= shr_m x)%Z)), H; apply shr_1_nonneg.
Qed.

Lemma shr_fexp_nonneg m e l :
  (0 <= m)%Z -> (0 <= shr_m (fst (shr_fexp prec emax m e l)))%Z.
Proof.
  intros H. unfold shr_fexp. apply shr_nonneg.
  destruct l as [|[]]; exact H.
Qed.

Lemma round_nearest_even_nonneg m l :
  (0 <= m)%Z -> (0 <= round_nearest_even m l)%Z.
Proof.
  intros H. destruct l as [|[]]; simpl; try lia.
  destruct (Z.even m); lia.
Qed.

(** Rounding a mantissa that is not negative never gives NaN. *)
Lemma binary_round_aux_not_nan s m e l :
  (0 <= m)%Z -> binary_round_aux prec emax s m e l <> S754_nan.
Proof.
  intros H. unfold binary_round_aux.
  pose proof (shr_fexp_nonneg m e l H) as H1.
  destruct (shr_fexp prec emax m e l) as [mrs' e']. simpl in H1.
  pose proof (shr_fexp_nonneg _ e' loc_Exact
                (round_nearest_even_nonneg _ (loc_of_shr_record mrs') H1)) as H2.
  destruct (shr_fexp prec emax _ e' loc_Exact) as [mrs'' e'']. simpl in H2.
  destruct (shr_m mrs''); [discriminate| |lia].
  destruct (e'' <=? emax - prec)%Z; discriminate.
Qed.

Lemma binary_normalize_not_nan m e z :
  binary_normalize prec emax m e z <> S754_nan.
Proof.
  destruct m; simpl; [discriminate|..];
    unfold binary_round; destruct (shl_align _ _ _);
    apply binary_round_aux_not_nan; lia.
Qed.

End Rounding.

Section Float64NaN.
Local Open Scope float_scope.

Lemma isna_SF (x : float) : isna x = SFnan (Prim2SF x).
Proof.
  destruct (isna x) eqn:E.
  - apply isna_nan in E. now subst x.
  - destruct (Prim2SF x) eqn:Ex; try reflexivity.
    assert (x = nan) as -> by (apply Prim2SF_inj; now rewrite Ex).
    discriminate.
Qed.

Lemma finite_SF (x : float) : finite x = SFfin (Prim2SF x).
Proof.
  unfold finite, is_finite. fold (isna x). rewrite isna_SF.
  unfold is_infinity. rewrite FloatAxioms.eqb_spec, abs_spec.
  change (Prim2SF infinity) with (S754_infinity false).
  now destruct (Prim2SF x) as [[]|[]| |[] m e].
Qed.

(** Dividing by a finite number other than zero gives NaN for NaN only. *)
Lemma isna_div_finite (x c : float) :
  (exists s m e, Prim2SF c = S754_finite s m e) -> isna (x / c) = isna x.
Proof.
  intros (s & m & e & Hc). rewrite !isna_SF, div_spec, Hc.
  unfold SF64div, SFdiv.
  destruct (Prim2SF x) as [sx|sx| |sx mx ex]; try reflexivity.
  destruct (SFdiv_core_binary _ _ _ _ _ _) as [[mz ez] lz] eqn:Ed.
  assert (Hmz : (0 <= mz)%Z).
  { unfold SFdiv_core_binary in Ed.
    set (m' := match _ with Z0 => _ | Zpos _ => _ | Zneg _ => _ end) in Ed.
    assert (Hm' : (0 <= m')%Z).
    { subst m'. destruct (_ - _ - _)%Z; try lia. apply Z.shiftl_nonneg. lia. }
    pose proof (Z.div_eucl_eq m' (Z.pos m) ltac:(lia)) as Hq.
    pose proof (Z.mod_pos_bound m' (Z.pos m) ltac:(lia)) as Hr.
    unfold Z.modulo in Hr.
    destruct (Z.div_eucl m' (Z.pos m)) as [q r]. injection Ed as <- _ _.
    nia. }
  pose proof (binary_round_aux_not_nan prec emax (xorb sx s) mz ez lz Hmz) as Hn.
  now destruct (binary_round_aux _ _ _ _ _ _).
Qed.

(** So does multiplying by one. *)
Lemma isna_mul_finite (x c : float) :
  (exists s m e, Prim2SF c = S754_finite s m e) -> isna (x * c) = isna x.
Proof.
  intros (s & m & e & Hc). rewrite !isna_SF, mul_spec, Hc.
  unfold SF64mul, SFmul.
  destruct (Prim2SF x) as [sx|sx| |sx mx ex]; try reflexivity.
  pose proof (binary_round_aux_not_nan prec emax (xorb sx s)
                (Z.pos (mx * m)) (ex + e) loc_Exact ltac:(lia)) as Hn.
  now destruct (binary_round_aux _ _ _ _ _ _).
Qed.

(** And subtracting one. *)
Lemma isna_sub_finite (x c : float) :
  (exists s m e, Prim2SF c = S754_finite s m e) -> isna (x - c) = isna x.
Proof.
  intros (s & m & e & Hc). rewrite !isna_SF, sub_spec, Hc.
  unfold SF64sub, SFsub.
  destruct (Prim2SF x) as [sx|sx| |sx mx ex]; try reflexivity.
  match goal with |- SFnan (binary_normalize ?p ?q ?a ?b ?c) = _ =>
    pose proof (binary_normalize_not_nan p q a b c) as Hn;
    now destruct (binary_normalize p q a b c) end.
Qed.

(** The difference of two finite numbers is a number. *)
Lemma isna_sub_finite_finite (x y : float) :
  finite x = true -> finite y = true -> isna (x - y) = false.
Proof.
  rewrite !finite_SF, isna_SF, sub_spec. unfold SF64sub, SFsub.
  destruct (Prim2SF x) as [sx|sx| |sx mx ex], (Prim2SF y) as [sy|sy| |sy my ey];
    try discriminate; intros _ _; try reflexivity.
  - now destruct sx, sy.
  - match goal with |- SFnan (binary_normalize ?p ?q ?a ?b ?c) = _ =>
      pose proof (binary_normalize_not_nan p q a b c) as Hn;
      now destruct (binary_normalize p q a b c) end.
Qed.

Lemma finite_1000 : exists s m e, Prim2SF 1000 = S754_finite s m e.
Proof. vm_compute. eauto. Qed.
Lemma finite_1000000 : exists s m e, Prim2SF 1000000 = S754_finite s m e.
Proof. vm_compute. eauto. Qed.
Lemma finite_100 : exists s m e, Prim2SF 100 = S754_finite s m e.
Proof. vm_compute. eauto. Qed.
Lemma finite_1 : exists s m e, Prim2SF 1 = S754_finite s m e.
Proof. vm_compute. eauto. Qed.

End Float64NaN.

(* ===================================================================== *)
(** * The transform engine: the other transforms                          *)
(* ===================================================================== *)

Section OtherTransforms.
Variable fm : fill_method.
Implicit Types (df s : DataFrame) (v w : Series) (h : heap) (k : string).

Lemma keys_set_value s v : length v = length s -> key <$> set_value s v = key <$> s.
Proof.
  revert v. induction s as [|r s IH]; intros [|a v] E; simpl in *;
    try discriminate; [reflexivity|].
  f_equal. apply IH. lia.
Qed.

Lemma set_value_split_at n s w1 w2 :
  length w1 = min n (length s) ->
  set_value s (w1 ++ w2) = set_value (take n s) w1 ++ set_value (drop n s) w2.
Proof.
  intros E. unfold set_value. rewrite <- (take_drop n s) at 1.
  apply zip_with_app. now rewrite length_take.
Qed.

Lemma dropna_nan_front n s w :
  dropna (set_value s (replicate (min n (length s)) nan ++ w))
  = dropna (set_value (drop n s) w).
Proof.
  rewrite (set_value_split_at n) by apply length_replicate.
  unfold dropna at 1. rewrite filter_app.
  fold (dropna (set_value (take n s) (replicate (min n (length s)) nan))).
  rewrite dropna_all_nan; [reflexivity|]. apply set_value_nan.
Qed.

Lemma sub_nan_r_map v :
  (fun a => (a - nan)%float) <$> v = replicate (length v) nan.
Proof.
  induction v as [|a v IH]; simpl; [reflexivity|].
  rewrite sub_nan_r. now f_equal.
Qed.

Lemma diff_shape n v :
  diff n v = replicate (min n (length v)) nan
             ++ zip_with (fun a b => (a - b)%float) (drop n v) v.
Proof.
  unfold diff. now rewrite zip_with_shift, sub_nan_r_map, length_take.
Qed.

Lemma transform_values_mom v :
  transform_values fm "mom_level_k" v = div_scalar (diff 1 v) 1000.
Proof. reflexivity. Qed.

Lemma mom_points s :
  set_value (drop 1 s)
    (div_scalar (zip_with (fun a b => (a - b)%float) (drop 1 (values s)) (values s)) 1000)
  = mom_spec s.
Proof.
  apply list_eq. intros i. unfold set_value, div_scalar, mom_spec, values.
  rewrite lookup_zip_with, !list_lookup_fmap, lookup_zip_with, lookup_drop.
  rewrite !list_lookup_fmap, lookup_drop.
  destruct (s !! (1 + i)) as [r|] eqn:Hr.
  - assert (Hlt : 1 + i < length s) by (apply lookup_lt_is_Some; eauto).
    destruct (lookup_lt_is_Some_2 s i) as [p Hp]; [lia|].
    assert (Hy : mom_point s (1 + i)
                 = with_value r ((value r - value p) / 1000)%float).
    { unfold mom_point. rewrite Hr.
      replace (1 + i - 1) with i by lia. now rewrite Hp. }
    rewrite Hp, lookup_seq_lt by lia. simpl. f_equal. exact (eq_sym Hy).
  - apply lookup_ge_None in Hr. rewrite lookup_seq_ge by lia. reflexivity.
Qed.

Lemma transformed_mom df :
  transformed fm "mom_level_k" df = dropna (mom_spec (sort_values df)).
Proof.
  unfold transformed, rewritten. rewrite transform_values_mom, diff_shape.
  unfold div_scalar at 1. rewrite fmap_app, fmap_replicate.
  change (nan / 1000)%float with nan.
  unfold values at 1. rewrite length_fmap, dropna_nan_front.
  fold (div_scalar (zip_with (fun a b => (a - b)%float)
                      (drop 1 (values (sort_values df))) (values (sort_values df))) 1000).
  now rewrite mom_points.
Qed.

Lemma mom_spec_notna s :
  Forall (fun r => finite (value r) = true) s ->
  Forall (fun r => isna (value r) = false) (mom_spec s).
Proof.
  intros H. apply Forall_forall. intros r Hr. unfold mom_spec in Hr.
  apply list_elem_of_fmap in Hr as (t & -> & Ht).
  apply elem_of_seq in Ht. unfold mom_point.
  destruct (lookup_lt_is_Some_2 s t) as [a Ha]; [lia|].
  destruct (lookup_lt_is_Some_2 s (t - 1)) as [b Hb]; [lia|].
  rewrite Ha, Hb. simpl.
  rewrite (isna_div_finite _ _ finite_1000).
  apply isna_sub_finite_finite;
    [apply (Forall_lookup_1 _ _ _ _ H Ha)|apply (Forall_lookup_1 _ _ _ _ H Hb)].
Qed.

(** ** Scaling *)

Lemma set_value_div_scalar s c :
  set_value s (div_scalar (values s) c) = scaled c <$> s.
Proof.
  unfold set_value, div_scalar, values.
  induction s as [|r s IH]; simpl; [reflexivity|]. f_equal. exact IH.
Qed.

Lemma dropna_scaled s c :
  (exists sg m e, Prim2SF c = S754_finite sg m e) ->
  dropna (scaled c <$> s) = scaled c <$> dropna s.
Proof.
  intros Hc. unfold dropna.
  induction s as [|r s IH]; [reflexivity|].
  rewrite fmap_cons, !filter_cons, IH.
  assert (E : notna (value (scaled c r)) = notna (value r)).
  { unfold notna. simpl. now rewrite isna_div_finite. }
  repeat case_decide; try reflexivity.
  - rewrite E in *. contradiction.
  - rewrite E in *. contradiction.
Qed.

Lemma transformed_scaling k c df :
  (k = "level_thous" /\ c = 1000%float) \/ (k = "level_millions" /\ c = 1000000%float) ->
  transformed fm k df = scaled c <$> dropna (sort_values df).
Proof.
  intros [[-> ->]|[-> ->]]; unfold transformed, rewritten;
    [change (transform_values fm "level_thous" ?v) with (div_scalar v 1000)
    |change (transform_values fm "level_millions" ?v) with (div_scalar v 1000000)];
    rewrite set_value_div_scalar;
    apply dropna_scaled; [apply finite_1000|apply finite_1000000].
Qed.

(** ** All transforms *)

Lemma keys_transformed k df :
  key <$> transformed fm k df `sublist_of` key <$> sort_values df.
Proof.
  unfold transformed.
  rewrite <- (keys_set_value (sort_values df)
                (transform_values fm k (values (sort_values df)))).
  - apply fmap_sublist, dropna_sublist.
  - rewrite length_transform_values. apply length_fmap.
Qed.

Lemma sort_values_perm_invariant df1 df2 :
  NoDup (dates df1) -> df1 ≡ₚ df2 -> sort_values df1 = sort_values df2.
Proof.
  intros Hnd Hp. symmetry. apply sort_values_unique.
  - exact Hnd.
  - now rewrite sort_values_perm.
  - apply sort_values_sorted.
Qed.

End OtherTransforms.

Section Float64Zero.
Local Open Scope float_scope.

Lemma finite_notna (x : float) : finite x = true -> isna x = false.
Proof. rewrite finite_SF, isna_SF. now destruct (Prim2SF x). Qed.

Lemma finite_nonzero (x : float) :
  finite x = true -> (x =? 0) = false ->
  exists s m e, Prim2SF x = S754_finite s m e.
Proof.
  rewrite finite_SF, FloatAxioms.eqb_spec.
  change (Prim2SF 0) with (S754_zero false).
  destruct (Prim2SF x) as [s|s| |s m e]; simpl; intros Hf Hz;
    try discriminate.
  eauto.
Qed.

End Float64Zero.

Section YoyFinite.

Lemma yoy_spec_notna (s : DataFrame) :
  Forall (fun r => finite (value r) = true /\ (value r =? 0)%float = false) s ->
  Forall (fun r => isna (value r) = false) (yoy_spec s).
Proof.
  intros H. apply Forall_forall. intros r Hr. unfold yoy_spec in Hr.
  apply list_elem_of_fmap in Hr as (t & -> & Ht).
  apply elem_of_seq in Ht. unfold yoy_point.
  destruct (lookup_lt_is_Some_2 s t) as [a Ha]; [lia|].
  destruct (lookup_lt_is_Some_2 s (t - 12)) as [b Hb]; [lia|].
  rewrite Ha, Hb. simpl.
  destruct (Forall_lookup_1 _ _ _ _ H Ha) as [Fa _].
  destruct (Forall_lookup_1 _ _ _ _ H Hb) as [Fb Zb].
  rewrite (isna_mul_finite _ _ finite_100), (isna_sub_finite _ _ finite_1).
  rewrite (isna_div_finite _ _ (finite_nonzero _ Fb Zb)).
  now apply finite_notna.
Qed.

End YoyFinite.

(** X1.  Month over month: the result of [compute_transform(df,
    "mom_level_k")] holds, for each position [t >= 1] of the sorted frame,
    the point with the value [(value[t] - value[t-1]) / 1000], those that
    come out as NaN dropped; the first point has none.  On finite values
    nothing else is dropped: the result has one point less than the
    input. *)
Theorem mom_positional_difference (fm : fill_method) (h : heap) (l : loc)
    (df : DataFrame) :
  h !! l = Some df ->
  transform_result fm h (Some l) "mom_level_k"
  = Some (dropna (mom_spec (sort_values df)))
  /\ (Forall (fun r => finite (value r) = true) df ->
      dropna (mom_spec (sort_values df)) = mom_spec (sort_values df)
      /\ length (mom_spec (sort_values df)) = length df - 1).
Proof.
  intros Hl. split.
  - rewrite (transform_result_Some fm h l df _ Hl). now rewrite transformed_mom.
  - intros Hf. split.
    + apply dropna_id, mom_spec_notna. now rewrite sort_values_perm.
    + unfold mom_spec. now rewrite length_fmap, length_seq, length_sort_values.
Qed.

Lemma mom_positional_difference_witness :
  transform_result pad [Samples.s13_shuffled] (Some 0) "mom_level_k"
  = Some (dropna (mom_spec (sort_values Samples.s13_shuffled)))
  /\ length (dropna (mom_spec (sort_values Samples.s13_shuffled))) = 12.
Proof.
  split.
  - apply (mom_positional_difference pad [Samples.s13_shuffled] 0 Samples.s13_shuffled).
    reflexivity.
  - reflexivity.
Defined.

(** X2.  The scaling transforms divide every value by 1000
    ([level_thous]) or 1000000 ([level_millions]) and drop the rows whose
    input value is missing, no other: on a series without missing values
    the result has every point of the input, in order of timestamp. *)
Theorem scaling_keeps_points (fm : fill_method) (h : heap) (l : loc)
    (df : DataFrame) (k : string) (c : float) :
  h !! l = Some df ->
  (k = "level_thous" /\ c = 1000%float) \/ (k = "level_millions" /\ c = 1000000%float) ->
  transform_result fm h (Some l) k = Some (scaled c <$> dropna (sort_values df))
  /\ (Forall (fun r => isna (value r) = false) df ->
      transform_result fm h (Some l) k = Some (scaled c <$> sort_values df)).
Proof.
  intros Hl Hk.
  assert (E : transform_result fm h (Some l) k
              = Some (scaled c <$> dropna (sort_values df))).
  { rewrite (transform_result_Some fm h l df _ Hl).
    now rewrite (transformed_scaling fm k c). }
  split; [exact E|]. intros Hna. rewrite E. do 2 f_equal.
  apply dropna_id. now rewrite sort_values_perm.
Qed.

Lemma scaling_keeps_points_witness :
  transform_result pad [Samples.s13_shuffled] (Some 0) "level_thous"
  = Some (scaled 1000 <$> dropna (sort_values Samples.s13_shuffled))
  /\ (Forall (fun r => isna (value r) = false) Samples.s13_shuffled ->
      transform_result pad [Samples.s13_shuffled] (Some 0) "level_thous"
      = Some (scaled 1000 <$> sort_values Samples.s13_shuffled)).
Proof.
  apply (scaling_keeps_points pad [Samples.s13_shuffled] 0 Samples.s13_shuffled).
  - reflexivity.
  - left. split; reflexivity.
Defined.

(** X3.  Whatever the transform, the points of the result are points of
    the input: their timestamps with their metadata are, in this order,
    among those of the sorted input, so the result is never longer than
    the input and no timestamp is made up. *)
Theorem result_points_from_input (fm : fill_method) (h : heap) (l : loc)
    (df : DataFrame) (k : string) :
  h !! l = Some df ->
  exists out,
    transform_result fm h (Some l) k = Some out
    /\ key <$> out `sublist_of` key <$> sort_values df
    /\ length out <= length df.
Proof.
  intros Hl. exists (transformed fm k df).
  split; [now apply transform_result_Some|].
  pose proof (keys_transformed fm k df) as Hs. split; [exact Hs|].
  apply sublist_length in Hs. now rewrite !length_fmap, length_sort_values in Hs.
Qed.

Lemma result_points_from_input_witness :
  exists out,
    transform_result pad [Samples.zero_ref] (Some 0) "yoy" = Some out
    /\ key <$> out `sublist_of` key <$> sort_values Samples.zero_ref
    /\ length out <= length Samples.zero_ref.
Proof.
  apply (result_points_from_input pad [Samples.zero_ref] 0 Samples.zero_ref "yoy").
  reflexivity.
Defined.

(** X4.  The order of the rows of the input does not matter: two frames
    with the same rows, of distinct timestamps, give the same result
    under every transform. *)
Theorem transform_order_independent (fm : fill_method) (h1 h2 : heap) (l1 l2 : loc)
    (df1 df2 : DataFrame) (k : string) :
  h1 !! l1 = Some df1 ->
  h2 !! l2 = Some df2 ->
  df1 ≡ₚ df2 ->
  NoDup (dates df1) ->
  transform_result fm h1 (Some l1) k = transform_result fm h2 (Some l2) k.
Proof.
  intros H1 H2 Hp Hnd.
  rewrite (transform_result_Some fm h1 l1 df1 k H1).
  rewrite (transform_result_Some fm h2 l2 df2 k H2).
  unfold transformed, rewritten.
  now rewrite (sort_values_perm_invariant df1 df2 Hnd Hp).
Qed.

Lemma transform_order_independent_witness :
  transform_result pad [Samples.s13] (Some 0) "yoy"
  = transform_result pad [Samples.s13; Samples.s13_shuffled] (Some 1) "yoy".
Proof.
  apply (transform_order_independent pad [Samples.s13]
           [Samples.s13; Samples.s13_shuffled] 0 1 Samples.s13 Samples.s13_shuffled).
  - reflexivity.
  - reflexivity.
  - unfold Samples.s13_shuffled.
    rewrite <- (take_drop 5 Samples.s13) at 1. apply Permutation_app_comm.
  - apply NoDup_ListNoDup. vm_compute. repeat (constructor; [simpl; lia|]). constructor.
Defined.

(** X5.  On a frame of distinct timestamps the level transform returns
    its input as it is exactly when the input is in ascending order of
    timestamp and has no missing value.  (With distinct timestamps the
    sorted frame is the same for every sorting algorithm.) *)
Theorem level_identity_iff (fm : fill_method) (h : heap) (l : loc) (df : DataFrame) :
  h !! l = Some df ->
  NoDup (dates df) ->
  transform_result fm h (Some l) "level" = Some df
  <-> ascending df /\ Forall (fun r => isna (value r) = false) df.
Proof.
  intros Hl Hnd. rewrite (transform_result_Some fm h l df _ Hl), transformed_level.
  split.
  - intros E. injection E as E. split.
    + rewrite <- E. apply ascending_dropna, sort_values_sorted.
    + rewrite <- E. apply dropna_notna.
  - intros [Ha Hn]. f_equal.
    rewrite <- (sort_values_unique df df Hnd (reflexivity _) Ha).
    now apply dropna_id.
Qed.

Lemma level_identity_iff_witness :
  transform_result pad [Samples.s13] (Some 0) "level" = Some Samples.s13
  <-> ascending Samples.s13
      /\ Forall (fun r => isna (value r) = false) Samples.s13.
Proof.
  apply (level_identity_iff pad [Samples.s13] 0 Samples.s13).
  - reflexivity.
  - apply NoDup_ListNoDup. vm_compute.
    repeat (constructor; [simpl; lia|]). constructor.
Defined.

(** X6.  Year over year loses no point of a series whose values are
    finite and not zero: the result has exactly the points of the
    positions [t >= 12], [len - 12] of them. *)
Theorem yoy_no_point_lost (fm : fill_method) (h : heap) (l : loc) (df : DataFrame) :
  h !! l = Some df ->
  Forall (fun r => finite (value r) = true /\ (value r =? 0)%float = false) df ->
  transform_result fm h (Some l) "yoy" = Some (yoy_spec (sort_values df))
  /\ length (yoy_spec (sort_values df)) = length df - 12.
Proof.
  intros Hl Hf. split.
  - rewrite (transform_result_Some fm h l df _ Hl).
    rewrite transformed_yoy.
    + f_equal. apply dropna_id, yoy_spec_notna. now rewrite sort_values_perm.
    + eapply Forall_impl; [exact Hf|]. intros r [Fr _]. now apply finite_notna.
  - unfold yoy_spec. now rewrite length_fmap, length_seq, length_sort_values.
Qed.

Lemma yoy_no_point_lost_witness :
  transform_result pad [Samples.s13_shuffled] (Some 0) "yoy"
  = Some (yoy_spec (sort_values Samples.s13_shuffled))
  /\ length (yoy_spec (sort_values Samples.s13_shuffled))
     = length Samples.s13_shuffled - 12.
Proof.
  apply (yoy_no_point_lost pad [Samples.s13_shuffled] 0 Samples.s13_shuffled).
  - reflexivity.
  - repeat constructor.
Defined.

(* ===================================================================== *)
(** * The page                                                            *)
(* ===================================================================== *)

(** X7.  Auto-refresh is on, at 60000 ms, from Monday to Friday between
    8:00 and 17:30, both ends included, and off (0) at any other time. *)
Theorem refresh_on_in_market_hours (weekday hour minute : Z) :
  (0 <= minute < 60)%Z ->
  refresh_ms weekday hour minute
  = if ((weekday <=? 4) && (480 <=? 60 * hour + minute)
        && (60 * hour + minute <=? 1050))%Z
    then 60000%Z else 0%Z.
Proof.
  intros Hm. unfold refresh_ms, is_weekday, is_market_hours.
  destruct (Z.leb_spec weekday 4); simpl; [|reflexivity].
  destruct (Z.ltb_spec 7 hour), (Z.ltb_spec hour 17), (Z.eqb_spec hour 17),
    (Z.leb_spec minute 30), (Z.leb_spec 480 (60 * hour + minute)),
    (Z.leb_spec (60 * hour + minute) 1050); simpl; try reflexivity; lia.
Qed.

Lemma refresh_on_in_market_hours_witness :
  refresh_ms 4 17 30 = 60000%Z /\ refresh_ms 4 17 31 = 0%Z
  /\ refresh_ms 0 8 0 = 60000%Z /\ refresh_ms 5 12 0 = 0%Z.
Proof.
  rewrite !refresh_on_in_market_hours by lia. repeat split; reflexivity.
Defined.

Section HelperFacts.

Lemma py_getitem_last {A} (l : list A) :
  l <> [] -> exists x, last l = Some x /\ py_getitem l (-1) = Returned x.
Proof.
  intros Hne. destruct (proj2 (last_is_Some l) Hne) as [x Hx].
  exists x. split; [exact Hx|].
  assert (Hlen : 1 <= length l) by (destruct l; [congruence|simpl; lia]).
  apply (py_getitem_from_end l 1); [lia|].
  rewrite last_lookup in Hx. rewrite <- Hx. f_equal. lia.
Qed.

Lemma latest_value_run (df : option DataFrame) :
  latest_value df
  = Returned (value <$> (df ≫= last), date <$> (df ≫= last)).
Proof.
  destruct df as [[|r df]|]; try reflexivity.
  unfold latest_value. cbn [empty].
  destruct (py_getitem_last (r :: df)) as (x & Hx & ->); [discriminate|].
  cbn [mbind option_bind]. now rewrite Hx.
Qed.

(** The last row of a frame in ascending order has the greatest timestamp. *)
Lemma ascending_last (df : DataFrame) (r x : row) :
  ascending df -> last df = Some r -> x ∈ df -> (date x <= date r)%Z.
Proof.
  intros Ha Hl Hx. apply last_Some in Hl as [df' ->].
  apply ascending_rows in Ha.
  apply Sorted_StronglySorted in Ha; [|apply date_le_trans].
  apply StronglySorted_app in Ha as (Hall & _ & _).
  apply elem_of_app in Hx as [Hx|Hx].
  - apply (Hall x r Hx). now left.
  - apply list_elem_of_singleton in Hx as ->. lia.
Qed.

(** The result of [pct_change_latest] for a lookback [n >= 0]. *)
Lemma pct_change_latest_run (df : DataFrame) (n : nat) :
  pct_change_latest (Some df) (Z.of_nat n)
  = if (length df <=? n)%nat then Returned None
    else if (default nan (values df !! (length df - 1 - n)%nat) =? 0)%float
         then Raised ZeroDivisionError
         else Returned (Some (pct_change_spec df n)).
Proof.
  unfold pct_change_latest.
  destruct (Nat.leb_spec (length df) n) as [Hle|Hgt].
  - destruct (Z.leb_spec (Z.of_nat (length df)) (Z.of_nat n)) as [_|?]; [|lia].
    now rewrite orb_true_r.
  - destruct (Z.leb_spec (Z.of_nat (length df)) (Z.of_nat n)) as [?|_]; [lia|].
    destruct df as [|r0 df0] eqn:Edf; [simpl in Hgt; lia|]. rewrite <- Edf in *.
    assert (Hlen : length (values df) = length df) by apply length_fmap.
    replace (empty df) with false by now rewrite Edf.
    simpl orb. cbv iota.
    rewrite tail_last. set (vals := drop (length (values df) - S n) (values df)).
    assert (Hv : length vals = S n) by (subst vals; rewrite length_drop; lia).
    destruct (lookup_lt_is_Some_2 (values df) (length df - 1)) as [a Ha]; [lia|].
    destruct (lookup_lt_is_Some_2 (values df) (length df - 1 - n)) as [b Hb]; [lia|].
    assert (Ga : py_getitem vals (-1) = Returned a).
    { apply (py_getitem_from_end vals 1); [lia|].
      subst vals. rewrite lookup_drop, length_drop. rewrite <- Ha. f_equal. lia. }
    assert (Gb : py_getitem vals (- Z.of_nat n - 1) = Returned b).
    { replace (- Z.of_nat n - 1)%Z with (- Z.of_nat (S n))%Z by lia.
      apply (py_getitem_from_end vals (S n)); [lia|].
      subst vals. rewrite lookup_drop, length_drop. rewrite <- Hb. f_equal. lia. }
    rewrite Ga, Gb. simpl obind. rewrite Hb. simpl default.
    unfold py_truediv. destruct (b =? 0)%float; [reflexivity|].
    simpl. unfold pct_change_spec. now rewrite Hlen, Ha, Hb.
Qed.

End HelperFacts.

(** X8.  [latest_value] never raises: it returns the value and the date
    of the last row, and [(None, None)] for [None] and for an empty
    frame, for these only. *)
Theorem latest_value_last_row (df : option DataFrame) :
  latest_value df = Returned (value <$> (df ≫= last), date <$> (df ≫= last))
  /\ (latest_value df = Returned (None, None) <-> no_data df = true).
Proof.
  split; [apply latest_value_run|].
  rewrite latest_value_run.
  destruct df as [[|r df]|]; simpl; try (split; reflexivity).
  destruct (proj2 (last_is_Some (r :: df))) as [x Hx]; [discriminate|].
  rewrite Hx. simpl. split; discriminate.
Qed.

(** X9.  The latest value of a transformed series is that of its point of
    greatest timestamp: no point of the result is later than the date
    [latest_value] returns. *)
Theorem latest_of_result_is_newest (fm : fill_method) (h : heap) (l : loc)
    (df : DataFrame) (k : string) (v : float) (d : Z) :
  h !! l = Some df ->
  latest_value (transform_result fm h (Some l) k) = Returned (Some v, Some d) ->
  exists out r,
    transform_result fm h (Some l) k = Some out
    /\ last out = Some r /\ value r = v /\ date r = d
    /\ Forall (fun x => (date x <= d)%Z) out.
Proof.
  intros Hl. rewrite (transform_result_Some fm h l df k Hl).
  rewrite latest_value_run. simpl.
  destruct (last (transformed fm k df)) as [r|] eqn:Hr; [|discriminate].
  simpl. intros E. injection E as <- <-.
  exists (transformed fm k df), r.
  split; [reflexivity|]. split; [exact Hr|]. do 2 (split; [reflexivity|]).
  apply Forall_forall. intros x Hx.
  apply (ascending_last _ r x (transformed_ascending fm k df) Hr Hx).
Qed.

Lemma latest_of_result_is_newest_witness :
  exists out r,
    transform_result pad [Samples.s13_shuffled] (Some 0) "level" = Some out
    /\ last out = Some r /\ value r = 110%float /\ date r = 12%Z
    /\ Forall (fun x => (date x <= 12)%Z) out.
Proof.
  apply (latest_of_result_is_newest pad [Samples.s13_shuffled] 0
           Samples.s13_shuffled "level" 110%float 12%Z); reflexivity.
Defined.

Section CardFacts.
Variable fm : fill_method.
Variable parse_datetime : string -> option Z.
Variable parse_numeric : string -> option float.
Variable network : nat -> string -> string -> http_result.

Lemma card_body_no_data (meta : indicator) (series : option DataFrame) :
  no_data series = true -> card_body meta series = Returned CardError.
Proof.
  intros H. unfold card_body. rewrite latest_value_run.
  destruct series as [[|r s]|]; try discriminate; simpl;
    destruct (String.eqb _ _); reflexivity.
Qed.

Lemma last_lookup_length {A} (s : list A) (r : A) :
  last s = Some r -> s !! (length s - 1) = Some r /\ 1 <= length s.
Proof.
  intros H. rewrite last_lookup in H. split.
  - rewrite <- H. f_equal. lia.
  - apply lookup_lt_Some in H. lia.
Qed.

(** The run of [new_object] and [compute_transform] on what the fetcher
    returned. *)
Lemma transform_of_fetched (h : heap) (raw : option DataFrame) (k : string) :
  exists h',
    (let '(o, h1) := new_object raw h in
     let '(series, h2) := compute_transform fm o k h1 in
     (deref h2 series, h2)) = (transformed fm k <$> raw, h')
    /\ forall l0, l0 < length h -> h' !! l0 = h !! l0.
Proof.
  destruct raw as [f|]; unfold new_object, alloc, ret; cbv beta iota zeta.
  - rewrite (compute_transform_run fm (h ++ [f]) (length h) f k (lookup_new h f [])).
    eexists. split.
    + f_equal.
      pose proof (transform_result_Some fm (h ++ [f]) (length h) f k
                    (lookup_new h f [])) as E.
      unfold transform_result in E.
      now rewrite (compute_transform_run fm (h ++ [f]) (length h) f k
                     (lookup_new h f [])) in E.
    + intros l0 H0. rewrite <- app_assoc. now apply lookup_old.
  - exists h. split; [reflexivity|auto].
Qed.


End CardFacts.

(** X10.  A card shows the error box when there is no data.  Otherwise it
    shows the last point; a delta only for a level indicator with at
    least two points, the percent change from the point before the last;
    and with such an indicator it raises [ZeroDivisionError] when the
    value before the last is zero. *)
Theorem card_body_cases (meta : indicator) (s : DataFrame) (r : row) :
  last s = Some r ->
  (card_body meta None = Returned CardError
   /\ card_body meta (Some []) = Returned CardError)
  /\ (String.eqb (ind_transform meta) "level" = false \/ length s = 1 ->
      card_body meta (Some s)
      = Returned (CardMetric (value r) (Some (date r)) None))
  /\ (forall p,
        String.eqb (ind_transform meta) "level" = true ->
        s !! (length s - 2) = Some p -> 2 <= length s ->
        card_body meta (Some s)
        = if (value p =? 0)%float then Raised ZeroDivisionError
          else Returned (CardMetric (value r) (Some (date r))
                           (Some ((value r / value p - 1) * 100)%float))).
Proof.
  intros Hr. destruct (last_lookup_length s r Hr) as [Hlast Hlen].
  split; [split; apply card_body_no_data; reflexivity|].
  assert (Hlv : latest_value (Some s) = Returned (Some (value r), Some (date r))).
  { rewrite latest_value_run. simpl. now rewrite Hr. }
  pose proof (pct_change_latest_run s 1) as Hpc. change (Z.of_nat 1) with 1%Z in Hpc.
  split.
  - intros Hk. unfold card_body. rewrite Hlv.
    destruct (String.eqb (ind_transform meta) "level") eqn:Ek; [|reflexivity].
    destruct Hk as [Hk|Hk]; [discriminate|].
    rewrite Hpc, Hk. reflexivity.
  - intros p Ek Hp H2. unfold card_body. rewrite Hlv, Ek, Hpc.
    destruct (Nat.leb_spec (length s) 1) as [?|_]; [lia|].
    replace (length s - 1 - 1) with (length s - 2) by lia.
    unfold values. rewrite list_lookup_fmap, Hp. simpl.
    destruct (value p =? 0)%float; [reflexivity|].
    simpl. do 3 f_equal. unfold pct_change_spec, values.
    rewrite length_fmap, !list_lookup_fmap, Hlast.
    replace (length s - 1 - 1) with (length s - 2) by lia. now rewrite Hp.
Qed.

Lemma card_body_cases_witness :
  card_body (Indicator "A191RL1Q225SBEA" "q" "level") (Some Samples.flat_zero)
  = Raised ZeroDivisionError
  /\ card_body (Indicator "UNRATE" "m" "level") (Some Samples.rates)
     = Returned (CardMetric 5 (Some 1%Z) (Some 25%float))
  /\ card_body (Indicator "ICSA" "w" "level_thous") (Some Samples.flat_zero)
     = Returned (CardMetric 1 (Some 1%Z) None).
Proof.
  pose proof (card_body_cases (Indicator "A191RL1Q225SBEA" "q" "level")
                Samples.flat_zero (Row 1 1 "2024-06-01") eq_refl) as (_ & _ & H1).
  pose proof (card_body_cases (Indicator "UNRATE" "m" "level")
                Samples.rates (Row 1 5 "2024-06-01") eq_refl) as (_ & _ & H2).
  pose proof (card_body_cases (Indicator "ICSA" "w" "level_thous")
                Samples.flat_zero (Row 1 1 "2024-06-01") eq_refl) as (_ & H3 & _).
  split; [|split].
  - apply (H1 (Row 0 0 "2024-06-01")); [reflexivity|reflexivity|simpl; lia].
  - apply (H2 (Row 0 4 "2024-06-01")); [reflexivity|reflexivity|simpl; lia].
  - apply H3. left. reflexivity.
Defined.

Lemma card_run (fm : fill_method)
    (parse_datetime : string -> option Z) (parse_numeric : string -> option float)
    (network : nat -> string -> string -> http_result)
    (meta : indicator) (now : Z) (st st' : fetcher) (h : heap)
    (r : outcome (option DataFrame)) :
  fred_get_series parse_datetime parse_numeric network
    (ind_id meta) (ind_freq meta) now st = (r, st') ->
  exists h',
    card fm parse_datetime parse_numeric network meta now st h
    = (match r with
       | Raised e => Raised e
       | Returned raw =>
           card_body meta (transformed fm (ind_transform meta) <$> raw)
       end, st', h')
    /\ forall l0, l0 < length h -> h' !! l0 = h !! l0.
Proof.
  intros Hf. unfold card. rewrite Hf. destruct r as [raw|e].
  - destruct (transform_of_fetched fm h raw (ind_transform meta)) as (h' & E & Hh).
    exists h'. split; [|exact Hh].
    destruct (new_object raw h) as [o h1].
    destruct (compute_transform fm o (ind_transform meta) h1) as [series h2].
    now injection E as -> ->.
  - exists h. split; [reflexivity|auto].
Qed.

(** X11.  A card is the fetch, then the transform of the table entry,
    then [card_body]: it passes on an exception of the fetch, leaves the
    fetcher as the fetch left it, and changes no object that was in the
    heap. *)
Theorem card_is_fetch_then_transform (fm : fill_method)
    (parse_datetime : string -> option Z) (parse_numeric : string -> option float)
    (network : nat -> string -> string -> http_result)
    (meta : indicator) (now : Z) (st st' : fetcher) (h : heap)
    (r : outcome (option DataFrame)) :
  fred_get_series parse_datetime parse_numeric network
    (ind_id meta) (ind_freq meta) now st = (r, st') ->
  exists h',
    card fm parse_datetime parse_numeric network meta now st h
    = (match r with
       | Raised e => Raised e
       | Returned raw =>
           card_body meta (transformed fm (ind_transform meta) <$> raw)
       end, st', h')
    /\ forall l0, l0 < length h -> h' !! l0 = h !! l0.
Proof. apply card_run. Qed.

Lemma card_is_fetch_then_transform_witness :
  exists h',
    card pad Samples.stub_datetime Samples.stub_numeric Samples.stub_network
      (Indicator "UNRATE" "m" "level") 0 Samples.cold []
    = (card_body (Indicator "UNRATE" "m" "level")
         (transformed pad "level"
            <$> Some (omap (point Samples.stub_datetime Samples.stub_numeric
                              "2024-11-01") Samples.ten_records)),
       snd (fred_get_series Samples.stub_datetime Samples.stub_numeric
              Samples.stub_network "UNRATE" "m" 0 Samples.cold), h')
    /\ forall l0, l0 < 0 -> h' !! l0 = ([] : heap) !! l0.
Proof.
  apply (card_is_fetch_then_transform pad Samples.stub_datetime Samples.stub_numeric
           Samples.stub_network (Indicator "UNRATE" "m" "level") 0 Samples.cold _ []
           (Returned (Some (omap (point Samples.stub_datetime Samples.stub_numeric
                                    "2024-11-01") Samples.ten_records)))).
  reflexivity.
Defined.

Section ChartFacts.



End ChartFacts.



(* ===================================================================== *)
(** * The series fetcher: outcomes, invariants, cache                     *)
(* ===================================================================== *)

Section FetchOutcome.
Variable parse_datetime : string -> option Z.
Variable parse_numeric : string -> option float.
Variable network : nat -> string -> string -> http_result.

Lemma parse_payload_bad_date (data : payload) :
  Exists (fun o => parse_datetime (obs_date o) = None) (observations data) ->
  parse_payload parse_datetime parse_numeric data = Raised DateParseError.
Proof.
  intros He. unfold parse_payload, to_datetime.
  destruct (observations data) as [|o obs] eqn:E; [now apply Exists_nil in He|].
  rewrite (mapM_None_2 parse_datetime (obs_date <$> (o :: obs))); [reflexivity|].
  apply Exists_fmap. exact He.
Qed.

Lemma points_notna stamp (obs : list observation) :
  Forall (fun r => isna (value r) = false /\ last_updated r = stamp)
    (omap (point parse_datetime parse_numeric stamp) obs).
Proof.
  apply Forall_forall. intros r Hr.
  apply list_elem_of_omap in Hr as (o & _ & Ho). unfold point in Ho.
  destruct (parse_datetime (obs_date o)); [|discriminate].
  destruct (parse_numeric (obs_value o)) as [x|]; [|discriminate].
  unfold notna in Ho. destruct (isna x) eqn:Ex; [discriminate|].
  injection Ho as <-. now split.
Qed.

Lemma length_omap_le {A B} (f : A -> option B) (l : list A) :
  length (omap f l) <= length l.
Proof.
  induction l as [|a l IH]; [simpl; lia|].
  change (omap f (a :: l)) with (match f a with Some y => y :: omap f l | None => omap f l end).
  destruct (f a); simpl; lia.
Qed.

Lemma points_all_bad stamp (obs : list observation) :
  Forall (fun o => numeric parse_numeric o = false) obs ->
  omap (point parse_datetime parse_numeric stamp) obs = [].
Proof.
  induction 1 as [|o obs Ho _ IH]; [reflexivity|].
  change (omap ?f (o :: obs))
    with (match f o with Some y => y :: omap f obs | None => omap f obs end).
  unfold point at 1. unfold numeric in Ho.
  destruct (parse_datetime (obs_date o)); [|exact IH].
  destruct (parse_numeric (obs_value o)) as [x|]; [|exact IH].
  now rewrite Ho.
Qed.

(** What the body returns when it returns a frame. *)
Lemma fetch_body_frame series_id freq sent frame :
  fst (fred_get_series_body parse_datetime parse_numeric network series_id freq sent)
  = Returned (Some frame) ->
  exists text data,
    network sent series_id freq = Response 200 text (Some data)
    /\ observations data <> []
    /\ Forall (fun o => is_Some (parse_datetime (obs_date o))) (observations data)
    /\ frame = omap (point parse_datetime parse_numeric (realtime_end data))
                 (observations data).
Proof.
  unfold fred_get_series_body.
  destruct (network sent series_id freq) as [status text [data|]|] eqn:En;
    [|destruct (negb (status =? 200)%Z); simpl; discriminate
     |simpl; discriminate].
  destruct (Z.eqb_spec status 200) as [->|Hs]; simpl; [|discriminate].
  intros E. exists text, data. split; [reflexivity|].
  destruct (decide (observations data = [])) as [E0|Hne].
  { unfold parse_payload in E. rewrite E0 in E. discriminate. }
  destruct (decide (Forall (fun o => is_Some (parse_datetime (obs_date o)))
                      (observations data))) as [Hd|Hd].
  - rewrite parse_payload_points in E by assumption.
    injection E as <-. split; [assumption|]. split; [assumption|reflexivity].
  - apply not_Forall_Exists in Hd; [|intros o; apply _].
    rewrite parse_payload_bad_date in E; [discriminate|].
    eapply Exists_impl; [exact Hd|]. intros o Ho. simpl in Ho.
    destruct (parse_datetime (obs_date o)); [|reflexivity].
    exfalso. apply Ho. eauto.
Qed.

End FetchOutcome.

(** X13.  One date that does not parse fails the whole fetch: with status
    200 the body raises, whatever the values are, and the request is
    counted. *)
Theorem bad_date_fails_fetch
    (parse_datetime : string -> option Z) (parse_numeric : string -> option float)
    (network : nat -> string -> string -> http_result)
    (series_id freq text : string) (sent : nat) (data : payload) :
  network sent series_id freq = Response 200 text (Some data) ->
  Exists (fun o => parse_datetime (obs_date o) = None) (observations data) ->
  fred_get_series_body parse_datetime parse_numeric network series_id freq sent
  = (Raised DateParseError, S sent).
Proof.
  intros Hn He. unfold fred_get_series_body. rewrite Hn. simpl.
  now rewrite parse_payload_bad_date.
Qed.

Lemma bad_date_fails_fetch_witness :
  fred_get_series_body Samples.stub_datetime Samples.stub_numeric
    (fun _ _ _ => Response 200 "" (Some Samples.bad_date_body)) "UNRATE" "m" 3
  = (Raised DateParseError, 4).
Proof.
  apply (bad_date_fails_fetch _ _ _ _ _ "" 3 Samples.bad_date_body).
  - reflexivity.
  - apply Exists_cons_tl, Exists_cons_hd. reflexivity.
Defined.

(** X14.  A series the fetcher returns has no missing value, carries the
    response's [realtime_end] in every row, and has at most one point per
    record of the response. *)
Theorem fetched_series_invariants
    (parse_datetime : string -> option Z) (parse_numeric : string -> option float)
    (network : nat -> string -> string -> http_result)
    (series_id freq : string) (sent : nat) (frame : DataFrame) :
  fst (fred_get_series_body parse_datetime parse_numeric network series_id freq sent)
  = Returned (Some frame) ->
  exists text data,
    network sent series_id freq = Response 200 text (Some data)
    /\ Forall (fun r => isna (value r) = false
                        /\ last_updated r = realtime_end data) frame
    /\ length frame <= length (observations data).
Proof.
  intros E.
  destruct (fetch_body_frame _ _ _ _ _ _ _ E) as (text & data & Hn & _ & _ & ->).
  exists text, data. split; [exact Hn|]. split.
  - apply points_notna.
  - apply length_omap_le.
Qed.

Lemma fetched_series_invariants_witness :
  exists text data,
    Samples.stub_network 0 "UNRATE" "m" = Response 200 text (Some data)
    /\ Forall (fun r => isna (value r) = false
                        /\ last_updated r = realtime_end data)
         (omap (point Samples.stub_datetime Samples.stub_numeric "2024-11-01")
            Samples.ten_records)
    /\ length (omap (point Samples.stub_datetime Samples.stub_numeric "2024-11-01")
                 Samples.ten_records)
       <= length (observations data).
Proof.
  apply (fetched_series_invariants Samples.stub_datetime Samples.stub_numeric
           Samples.stub_network "UNRATE" "m" 0). reflexivity.
Defined.

(** X15.  Fetch, then year over year: a series as the fetcher returns it
    meets what the positional rule needs, so its year-over-year transform
    is the series of the ratios at the positions [t >= 12] of the sorted
    frame, whichever way [pct_change] fills. *)
Theorem fetched_series_yoy (fm : fill_method)
    (parse_datetime : string -> option Z) (parse_numeric : string -> option float)
    (network : nat -> string -> string -> http_result)
    (series_id freq : string) (sent : nat) (frame : DataFrame)
    (h : heap) (l : loc) :
  fst (fred_get_series_body parse_datetime parse_numeric network series_id freq sent)
  = Returned (Some frame) ->
  h !! l = Some frame ->
  transform_result fm h (Some l) "yoy" = Some (dropna (yoy_spec (sort_values frame))).
Proof.
  intros E Hl.
  destruct (fetch_body_frame _ _ _ _ _ _ _ E) as (text & data & _ & _ & _ & ->).
  rewrite (transform_result_Some fm h l _ _ Hl). rewrite transformed_yoy; [reflexivity|].
  eapply Forall_impl; [apply points_notna|]. now intros r [Hr _].
Qed.

Lemma fetched_series_yoy_witness :
  transform_result pad
    [omap (point Samples.stub_datetime Samples.stub_numeric "2024-11-01")
       Samples.ten_records] (Some 0) "yoy"
  = Some (dropna (yoy_spec (sort_values
       (omap (point Samples.stub_datetime Samples.stub_numeric "2024-11-01")
          Samples.ten_records)))).
Proof.
  apply (fetched_series_yoy pad Samples.stub_datetime Samples.stub_numeric
           Samples.stub_network "UNRATE" "m" 0); reflexivity.
Defined.

(** X16.  A response with records of which no value parses gives an empty
    series, not [None]; an empty record list gives [None].  A card shows
    the error box and a chart the warning in both cases. *)
Theorem no_numeric_value_gives_empty_series (fm : fill_method)
    (parse_datetime : string -> option Z) (parse_numeric : string -> option float)
    (network : nat -> string -> string -> http_result)
    (series_id freq text : string) (sent : nat) (data : payload)
    (meta : indicator) (cutoff : Z) :
  network sent series_id freq = Response 200 text (Some data) ->
  Forall (fun o => is_Some (parse_datetime (obs_date o))) (observations data) ->
  Forall (fun o => numeric parse_numeric o = false) (observations data) ->
  exists raw,
    fred_get_series_body parse_datetime parse_numeric network series_id freq sent
    = (Returned raw, S sent)
    /\ raw = (if decide (observations data = []) then None else Some [])
    /\ card_body meta (transformed fm (ind_transform meta) <$> raw)
       = Returned CardError
    /\ chart_body cutoff (transformed fm (ind_transform meta) <$> raw)
       = Returned ChartWarning.
Proof.
  intros Hn Hd Hv. unfold fred_get_series_body. rewrite Hn. simpl.
  destruct (decide (observations data = [])) as [E0|Hne].
  - exists None. unfold parse_payload. rewrite E0. repeat split.
    now apply card_body_no_data.
  - exists (Some []). rewrite parse_payload_points by assumption.
    rewrite points_all_bad by assumption. repeat split.
    now apply card_body_no_data.
Qed.

Lemma no_numeric_value_gives_empty_series_witness :
  exists raw,
    fred_get_series_body Samples.stub_datetime Samples.stub_numeric
      (fun _ _ _ => Response 200 "" (Some Samples.dots_body)) "NAPM" "m" 0
    = (Returned raw, 1)
    /\ raw = (if decide (observations Samples.dots_body = []) then None else Some [])
    /\ card_body (Indicator "NAPM" "m" "level") (transformed pad "level" <$> raw)
       = Returned CardError
    /\ chart_body 0 (transformed pad "level" <$> raw) = Returned ChartWarning.
Proof.
  apply (no_numeric_value_gives_empty_series pad Samples.stub_datetime
           Samples.stub_numeric _ "NAPM" "m" "" 0 Samples.dots_body
           (Indicator "NAPM" "m" "level") 0).
  - reflexivity.
  - repeat constructor; eexists; reflexivity.
  - repeat constructor.
Defined.

Section CacheMoreFacts.
Variable parse_datetime : string -> option Z.
Variable parse_numeric : string -> option float.
Variable network : nat -> string -> string -> http_result.

Local Abbreviation fetch :=
  (fred_get_series parse_datetime parse_numeric network).

(** What a call does to the fetcher: nothing on a hit; on a miss one
    request more, and an entry for the key when the body returned. *)
Lemma fetch_state series_id freq now st :
  let '(r, st') := fetch series_id freq now st in
  match cache_lookup now (series_id, freq) st with
  | Some v => r = Returned v /\ st' = st
  | None =>
      requests st' = S (requests st)
      /\ entries st' = match r with
                       | Returned v => <[(series_id, freq) := (now, v)]> (entries st)
                       | Raised _ => entries st
                       end
  end.
Proof.
  unfold fred_get_series.
  destruct (cache_lookup now (series_id, freq) st) as [v|]; [now split|].
  pose proof (body_sends_one parse_datetime parse_numeric network
                series_id freq (requests st)) as Hb.
  destruct (fred_get_series_body _ _ _ _ _ _) as [[v|e] sent];
    simpl in Hb; subst sent; now split.
Qed.

(** An entry that has expired stays expired. *)
Lemma cache_lookup_expired now now' key st :
  cache_lookup now key st = None -> (now <= now')%Z ->
  cache_lookup now' key st = None.
Proof.
  unfold cache_lookup. destruct (entries st !! key) as [[stamp v]|]; [|reflexivity].
  destruct (Z.ltb_spec now (stamp + ttl)); [discriminate|].
  destruct (Z.ltb_spec now' (stamp + ttl)); [lia|reflexivity].
Qed.

Lemma cache_lookup_entries now key st st' :
  entries st' = entries st -> cache_lookup now key st' = cache_lookup now key st.
Proof. intros E. unfold cache_lookup. now rewrite E. Qed.

End CacheMoreFacts.

(** X17.  A call that raises leaves no entry: the cache is as before, the
    request is counted, and a retry at any later time goes to the network
    again. *)
Theorem exception_is_not_cached
    (parse_datetime : string -> option Z) (parse_numeric : string -> option float)
    (network : nat -> string -> string -> http_result)
    (series_id freq : string) (now : Z) (st st' : fetcher) (e : exn) :
  fred_get_series parse_datetime parse_numeric network series_id freq now st
  = (Raised e, st') ->
  entries st' = entries st
  /\ requests st' = S (requests st)
  /\ forall now', (now <= now')%Z ->
       requests (snd (fred_get_series parse_datetime parse_numeric network
                        series_id freq now' st'))
       = S (S (requests st)).
Proof.
  intros Hf.
  pose proof (fetch_state parse_datetime parse_numeric network series_id freq now st)
    as Hs.
  rewrite Hf in Hs.
  destruct (cache_lookup now (series_id, freq) st) as [v|] eqn:Hl;
    [destruct Hs; discriminate|].
  destruct Hs as [Hr He]. split; [exact He|]. split; [exact Hr|].
  intros now' Hle.
  pose proof (fetch_state parse_datetime parse_numeric network series_id freq now' st')
    as Hs'.
  destruct (fred_get_series _ _ _ _ _ now' st') as [r'' st''].
  rewrite (cache_lookup_entries _ _ _ _ He) in Hs'.
  rewrite (cache_lookup_expired _ _ _ _ Hl Hle) in Hs'.
  destruct Hs' as [Hr' _]. simpl. now rewrite Hr', Hr.
Qed.

Lemma exception_is_not_cached_witness :
  let fetch := fred_get_series Samples.stub_datetime Samples.stub_numeric
                 (fun _ _ _ => NoResponse) "UNRATE" "m" in
  entries (snd (fetch 0%Z Samples.cold)) = entries Samples.cold
  /\ requests (snd (fetch 0%Z Samples.cold)) = 1
  /\ forall now', (0 <= now')%Z ->
       requests (snd (fetch now' (snd (fetch 0%Z Samples.cold)))) = 2.
Proof.
  apply (exception_is_not_cached Samples.stub_datetime Samples.stub_numeric
           (fun _ _ _ => NoResponse) "UNRATE" "m" 0 Samples.cold _ RequestException).
  reflexivity.
Defined.

(** X18.  A call for one series leaves the entries of every other key as
    they were: what the cache serves for another (series, frequency) at
    any time is not affected. *)
Theorem other_keys_untouched
    (parse_datetime : string -> option Z) (parse_numeric : string -> option float)
    (network : nat -> string -> string -> http_result)
    (series_id freq : string) (now t : Z) (st : fetcher) (other : string * string) :
  other <> (series_id, freq) ->
  cache_lookup t other
    (snd (fred_get_series parse_datetime parse_numeric network series_id freq now st))
  = cache_lookup t other st.
Proof.
  intros Hne.
  pose proof (fetch_state parse_datetime parse_numeric network series_id freq now st)
    as Hs.
  destruct (fred_get_series _ _ _ _ _ now st) as [r st']. simpl.
  destruct (cache_lookup now (series_id, freq) st) as [v|].
  - now destruct Hs as [_ ->].
  - destruct Hs as [_ He]. unfold cache_lookup. rewrite He.
    destruct r as [v|e]; [|reflexivity].
    now rewrite lookup_insert_ne.
Qed.

Lemma other_keys_untouched_witness :
  cache_lookup 30 ("UNRATE", "m")%string
    (snd (fred_get_series Samples.stub_datetime Samples.stub_numeric
            Samples.stub_network "PAYEMS" "m" 20
            (snd (fred_get_series Samples.stub_datetime Samples.stub_numeric
                    Samples.stub_network "UNRATE" "m" 0 Samples.cold))))
  = cache_lookup 30 ("UNRATE", "m")%string
      (snd (fred_get_series Samples.stub_datetime Samples.stub_numeric
              Samples.stub_network "UNRATE" "m" 0 Samples.cold)).
Proof.
  apply (other_keys_untouched Samples.stub_datetime Samples.stub_numeric
           Samples.stub_network "PAYEMS" "m" 20 30). discriminate.
Defined.

Section RenderFacts.
Variable fm : fill_method.
Variable parse_datetime : string -> option Z.
Variable parse_numeric : string -> option float.
Variable network : nat -> string -> string -> http_result.

Local Abbreviation fetch :=
  (fred_get_series parse_datetime parse_numeric network).
Local Abbreviation card1 := (card fm parse_datetime parse_numeric network).
Local Abbreviation cards := (render_cards fm parse_datetime parse_numeric network).

Lemma fetch_requests_bound series_id freq now st :
  requests st <= requests (snd (fetch series_id freq now st)) <= S (requests st).
Proof.
  pose proof (fetch_state parse_datetime parse_numeric network series_id freq now st)
    as Hs.
  destruct (fetch series_id freq now st) as [r st']. simpl.
  destruct (cache_lookup now (series_id, freq) st).
  - destruct Hs as [_ ->]. lia.
  - destruct Hs as [-> _]. lia.
Qed.

Lemma card_fetcher meta now st h :
  snd (fst (card1 meta now st h)) = snd (fetch (ind_id meta) (ind_freq meta) now st).
Proof.
  destruct (fetch (ind_id meta) (ind_freq meta) now st) as [r st'] eqn:Hf.
  destruct (card_run fm _ _ _ meta now st st' h r Hf) as (h' & -> & _).
  reflexivity.
Qed.

Lemma render_cards_bound inds clock i st h :
  requests st <= requests (snd (fst (cards inds clock i st h)))
  <= requests st + length inds.
Proof.
  revert i st h. induction inds as [|[name meta] inds IH]; intros i st h; simpl.
  - lia.
  - pose proof (card_fetcher meta (clock i) st h) as Hc.
    pose proof (fetch_requests_bound (ind_id meta) (ind_freq meta) (clock i) st) as Hb.
    destruct (card1 meta (clock i) st h) as [[v st1] h1]. simpl in Hc.
    rewrite <- Hc in Hb.
    destruct v as [v|e]; simpl; [|lia].
    specialize (IH (S i) st1 h1).
    destruct (cards inds clock (S i) st1 h1) as [[vs st2] h2]. simpl in *. lia.
Qed.

(** Within a window of one TTL that starts at [t0], on a cache written
    since [t0]: a call keeps every entry, and what it returns is in the
    cache afterwards. *)
Lemma fetch_in_window t0 series_id freq now st :
  fresh_since t0 st -> (t0 <= now < t0 + 60)%Z ->
  let '(r, st') := fetch series_id freq now st in
  fresh_since t0 st'
  /\ (forall k e, entries st !! k = Some e -> entries st' !! k = Some e)
  /\ (forall v, r = Returned v ->
        exists stamp, entries st' !! (series_id, freq) = Some (stamp, v)).
Proof.
  intros Hfr Hnow.
  pose proof (fetch_state parse_datetime parse_numeric network series_id freq now st)
    as Hs.
  destruct (fetch series_id freq now st) as [r st'].
  unfold cache_lookup in Hs.
  destruct (entries st !! (series_id, freq)) as [[stamp v0]|] eqn:He.
  - pose proof (Hfr _ _ _ He) as Hst. unfold ttl in Hs.
    destruct (Z.ltb_spec now (stamp + 60)) as [_|?]; [|lia].
    destruct Hs as [-> ->]. split; [exact Hfr|]. split; [auto|].
    intros v E. injection E as <-. eauto.
  - destruct Hs as [_ Hent]. destruct r as [v|e].
    + split; [|split].
      * intros k stamp v' Hk. rewrite Hent in Hk.
        destruct (decide ((series_id, freq) = k)) as [<-|Hne].
        -- rewrite lookup_insert_eq in Hk. injection Hk as <- <-. lia.
        -- rewrite lookup_insert_ne in Hk by assumption. eapply Hfr, Hk.
      * intros k e' Hk. rewrite Hent.
        destruct (decide ((series_id, freq) = k)) as [<-|Hne]; [congruence|].
        now rewrite lookup_insert_ne.
      * intros v' E. injection E as <-. exists now.
        now rewrite Hent, lookup_insert_eq.
    + split; [|split].
      * intros k stamp v' Hk. rewrite Hent in Hk. eapply Hfr, Hk.
      * intros k e' Hk. now rewrite Hent.
      * intros v' E. discriminate.
Qed.

Lemma fetch_hit_in_window t0 series_id freq now st stamp v :
  fresh_since t0 st -> (now < t0 + 60)%Z ->
  entries st !! (series_id, freq) = Some (stamp, v) ->
  fetch series_id freq now st = (Returned v, st).
Proof.
  intros Hfr Hnow He. apply fetch_hit. unfold cache_lookup, ttl. rewrite He.
  pose proof (Hfr _ _ _ He).
  destruct (Z.ltb_spec now (stamp + 60)); [reflexivity|lia].
Qed.

Lemma render_cards_in_window t0 inds clock i st h vs st' h' :
  fresh_since t0 st ->
  (forall j, (t0 <= clock j < t0 + 60)%Z) ->
  cards inds clock i st h = (Returned vs, st', h') ->
  fresh_since t0 st'
  /\ (forall k e, entries st !! k = Some e -> entries st' !! k = Some e)
  /\ Forall2 (cached_view fm st') inds vs.
Proof.
  intros Hfr Hclock. revert i st h vs st' h' Hfr.
  induction inds as [|[name meta] inds IH]; intros i st h vs st' h' Hfr Hrun.
  - simpl in Hrun. injection Hrun as <- <- <-.
    split; [exact Hfr|]. split; [auto|constructor].
  - simpl in Hrun.
    pose proof (fetch_in_window t0 (ind_id meta) (ind_freq meta) (clock i) st
                  Hfr (Hclock i)) as Hw.
    destruct (fetch (ind_id meta) (ind_freq meta) (clock i) st) as [r st1] eqn:Hf.
    destruct (card_run fm _ _ _ meta (clock i) st st1 h r Hf) as (h1 & Hc & _).
    rewrite Hc in Hrun. destruct Hw as (Hfr1 & Hkeep1 & Hin1).
    destruct r as [raw|e]; [|discriminate].
    destruct (card_body meta (transformed fm (ind_transform meta) <$> raw))
      as [v|e] eqn:Hv; [|discriminate].
    destruct (cards inds clock (S i) st1 h1) as [[vs' st2] h2] eqn:Hrest.
    destruct vs' as [vs'|e]; [|discriminate].
    injection Hrun as <- <- <-.
    destruct (IH (S i) st1 h1 vs' st2 h2 Hfr1 Hrest) as (Hfr2 & Hkeep2 & Hall).
    split; [exact Hfr2|]. split; [auto|].
    constructor; [|exact Hall].
    destruct (Hin1 raw eq_refl) as [stamp Hs].
    exists stamp, raw. split; [apply Hkeep2, Hs|exact Hv].
Qed.

Lemma render_cards_served t0 inds clock i st h vs :
  fresh_since t0 st ->
  (forall j, (clock j < t0 + 60)%Z) ->
  Forall2 (cached_view fm st) inds vs ->
  exists h', cards inds clock i st h = (Returned vs, st, h').
Proof.
  intros Hfr Hclock Hall. revert i h.
  induction Hall as [|[name meta] v inds vs (stamp & raw & He & Hv) _ IH];
    intros i h.
  - exists h. reflexivity.
  - simpl.
    pose proof (fetch_hit_in_window t0 (ind_id meta) (ind_freq meta) (clock i)
                  st stamp raw Hfr (Hclock i) He) as Hf.
    destruct (card_run fm _ _ _ meta (clock i) st st h _ Hf) as (h1 & Hc & _).
    rewrite Hc. simpl in Hv. rewrite Hv.
    destruct (IH (S i) h1) as [h2 ->]. eauto.
Qed.

End RenderFacts.

(** X19.  A run over the cards sends at most one request per card,
    whether it comes to its end or stops at an exception. *)
Theorem render_cards_request_bound (fm : fill_method)
    (parse_datetime : string -> option Z) (parse_numeric : string -> option float)
    (network : nat -> string -> string -> http_result)
    (inds : list (string * indicator)) (clock : nat -> Z) (i : nat)
    (st : fetcher) (h : heap) :
  requests st
  <= requests (snd (fst (render_cards fm parse_datetime parse_numeric network
                           inds clock i st h)))
  <= requests st + length inds.
Proof. apply render_cards_bound. Qed.

(** X20.  After the cache was cleared, when a run over the cards came to
    its end and a second run falls, like the first, within 60 time units
    of a time [t0] not after the first: the second run shows the same
    cards and leaves the fetcher as it was; it sends no request. *)
Theorem rerun_within_ttl_sends_nothing (fm : fill_method)
    (parse_datetime : string -> option Z) (parse_numeric : string -> option float)
    (network : nat -> string -> string -> http_result)
    (inds : list (string * indicator)) (clock1 clock2 : nat -> Z) (t0 : Z)
    (st0 st1 : fetcher) (h h1 h2 : heap) (vs : list card_view) :
  (forall j, (t0 <= clock1 j < t0 + 60)%Z) ->
  (forall j, (clock2 j < t0 + 60)%Z) ->
  render_cards fm parse_datetime parse_numeric network inds clock1 0
    (clear_cache st0) h = (Returned vs, st1, h1) ->
  exists h',
    render_cards fm parse_datetime parse_numeric network inds clock2 0 st1 h2
    = (Returned vs, st1, h').
Proof.
  intros Hc1 Hc2 Hrun.
  assert (Hfr : fresh_since t0 (clear_cache st0)).
  { intros k stamp v Hk. simpl in Hk. now rewrite lookup_empty in Hk. }
  destruct (render_cards_in_window fm _ _ _ t0 inds clock1 0 _ h vs st1 h1
              Hfr Hc1 Hrun) as (Hfr1 & _ & Hall).
  now apply (render_cards_served fm _ _ _ t0).
Qed.

Lemma rerun_within_ttl_sends_nothing_witness :
  let run1 := render_cards pad Samples.stub_datetime Samples.stub_numeric
                Samples.stub_network INDICATORS (fun _ => 0%Z) 0
                (clear_cache Samples.cold) [] in
  exists vs h',
    fst (fst run1) = Returned vs
    /\ render_cards pad Samples.stub_datetime Samples.stub_numeric
         Samples.stub_network INDICATORS (fun _ => 59%Z) 0
         (snd (fst run1)) (snd run1)
       = (Returned vs, snd (fst run1), h').
Proof.
  intros run1. destruct run1 as [[r st1] h1] eqn:E.
  assert (Hr : exists vs, r = Returned vs).
  { apply (f_equal (fun x => fst (fst x))) in E. simpl in E. rewrite <- E.
    vm_compute. eauto. }
  destruct Hr as [vs ->]. subst run1.
  destruct (rerun_within_ttl_sends_nothing pad Samples.stub_datetime
              Samples.stub_numeric Samples.stub_network INDICATORS
              (fun _ => 0%Z) (fun _ => 59%Z) 0 Samples.cold st1 [] h1 h1 vs)
    as [h' Hh'].
  - intros j. lia.
  - intros j. lia.
  - exact E.
  - exists vs, h'. split; [reflexivity|exact Hh'].
Defined.

(** X21.  The indicator table: no display name occurs twice, no two
    entries share a (series, frequency) key of the cache, and every
    transform name is one of the five that [compute_transform] knows. *)
Theorem indicators_table_well_formed :
  NoDup (fst <$> INDICATORS)
  /\ NoDup (cache_key <$> INDICATORS)
  /\ Forall (fun ind => ind_transform (snd ind) ∈ known_transforms) INDICATORS.
Proof.
  split; [|split].
  - apply (bool_decide_unpack _). vm_compute. exact I.
  - apply (bool_decide_unpack _). vm_compute. exact I.
  - apply (bool_decide_unpack _). vm_compute. exact I.
Qed.

(** X22.  A response with a status other than 200 is remembered: the
    fetcher returns [None], and for the next 60 time units it returns
    [None] for that key again without a request, whatever the network
    would answer by then. *)
Theorem failed_fetch_is_remembered
    (parse_datetime : string -> option Z) (parse_numeric : string -> option float)
    (network network' : nat -> string -> string -> http_result)
    (series_id freq text : string) (status now now' : Z) (body : option payload)
    (st : fetcher) :
  cache_lookup now (series_id, freq) st = None ->
  network (requests st) series_id freq = Response status text body ->
  status <> 200%Z ->
  (now' < now + 60)%Z ->
  let '(r, st1) :=
    fred_get_series parse_datetime parse_numeric network series_id freq now st in
  r = Returned None
  /\ requests st1 = S (requests st)
  /\ fred_get_series parse_datetime parse_numeric network' series_id freq now' st1
     = (Returned None, st1).
Proof.
  intros Hmiss Hn Hs Hnow.
  pose proof (fetch_state parse_datetime parse_numeric network series_id freq now st)
    as Hst.
  assert (Hr : fst (fred_get_series parse_datetime parse_numeric network
                      series_id freq now st) = Returned None).
  { unfold fred_get_series. rewrite Hmiss. unfold fred_get_series_body. rewrite Hn.
    destruct (Z.eqb_spec status 200); [contradiction|]. reflexivity. }
  destruct (fred_get_series parse_datetime parse_numeric network
              series_id freq now st) as [r st1].
  simpl in Hr. subst r. rewrite Hmiss in Hst. destruct Hst as [Hreq Hent].
  split; [reflexivity|]. split; [exact Hreq|].
  apply fetch_hit.
  rewrite (cache_lookup_fresh now now' (series_id, freq) None st1 _ Hent).
  unfold ttl. destruct (Z.ltb_spec now' (now + 60)); [reflexivity|lia].
Qed.

Lemma failed_fetch_is_remembered_witness :
  let '(r, st1) :=
    fred_get_series Samples.stub_datetime Samples.stub_numeric
      Samples.stub_network "PAYEMS" "m" 0 Samples.cold in
  r = Returned None
  /\ requests st1 = 1
  /\ fred_get_series Samples.stub_datetime Samples.stub_numeric
       (fun _ _ _ => Response 200 "" (Some Samples.body)) "PAYEMS" "m" 59 st1
     = (Returned None, st1).
Proof.
  apply (failed_fetch_is_remembered Samples.stub_datetime Samples.stub_numeric
           Samples.stub_network (fun _ _ _ => Response 200 "" (Some Samples.body))
           "PAYEMS" "m" "Bad Request" 400 0 59 None Samples.cold).
  - reflexivity.
  - reflexivity.
  - discriminate.
  - lia.
Defined.
